(** * flaskr/db.py: the request-scoped database connection manager

    A shallow embedding of [src/flaskr/db.py].  The module is glue code
    around three collaborators that it only calls: Flask's per-context
    namespace [g] and [current_app], the [sqlite3] driver, and [click].
    The functions of the module are written in a small state-and-exception
    monad over a [World] that holds what the module can observe: the
    namespace [g], the heap of connection objects (so that handles have an
    identity), the application configuration and the ordered trace of calls
    made to the outside.  Whether a call to the outside succeeds is decided
    by an [Environment], which every theorem quantifies over. *)

From stdpp Require Import gmap strings list fin_maps.
From Stdlib Require Import ZArith Lia Ascii.

Local Open Scope string_scope.
Local Open Scope list_scope.
Local Open Scope Z_scope.

(** ** Python values the module handles *)

(** Text is a sequence of Unicode code points, bytes a sequence of octets. *)
Abbreviation pystr := (list Z).
Abbreviation bytes := (list Z).

(** Exceptions that can travel through the module. *)
Inductive exn : Type :=
  | KeyError (key : string)
  | AttributeError (attr : string)
  | OperationalError
  | ProgrammingError
  | FileNotFoundError
  | UnicodeDecodeError
  | UnicodeEncodeError
  | ValueError.

(** Outcome of a Python call: a value, or a raised exception. *)
Inductive result (A : Type) : Type :=
  | Ok (a : A)
  | Raise (e : exn).
Arguments Ok {A} a.
Arguments Raise {A} e.

(** Object identity: a connection object is known by its address. *)
Abbreviation Ref := positive.

(** What can be stored in [g]: [None] or a reference to a connection. *)
Inductive pyobj : Type :=
  | PyNone
  | PyConn (r : Ref).

Definition is_none (o : pyobj) : bool :=
  match o with PyNone => true | PyConn _ => false end.

(** [sqlite3.PARSE_DECLTYPES], the flag of bit 0 of [detect_types]. *)
Definition PARSE_DECLTYPES : Z := 1.

(** [Connection.row_factory]: the default ([None], rows are tuples) or
    [sqlite3.Row] (rows addressable by column name). *)
Inductive RowFactory : Type :=
  | TupleRows
  | Row.

(** The attributes of a [sqlite3.Connection] object. *)
Record Connection : Type := mkConnection {
  conn_path : string;
  conn_detect_types : Z;
  conn_row_factory : RowFactory;
  conn_closed : bool
}.

(** Calls that leave the module, in the order they are made. *)
Inductive Event : Type :=
  | EvConnect (path : string) (detect_types : Z) (res : result Ref)
  | EvClose (r : Ref) (err : option exn)
  | EvOpenResource (name : string) (res : result bytes)
  | EvCloseResource (name : string)
  | EvExecuteScript (r : Ref) (script : pystr) (err : option exn)
  | EvEcho (msg : string).

(** ** The world seen by the module *)

Record World : Type := mkWorld {
  g : gmap string pyobj;          (* flask.g of the current context *)
  heap : gmap Ref Connection;     (* live connection objects *)
  config : gmap string string;    (* current_app.config *)
  calls : list Event              (* trace of outside calls *)
}.

Definition set_g (f : gmap string pyobj → gmap string pyobj) (w : World) : World :=
  mkWorld (f (g w)) (heap w) (config w) (calls w).

Definition set_heap (f : gmap Ref Connection → gmap Ref Connection) (w : World) : World :=
  mkWorld (g w) (f (heap w)) (config w) (calls w).

Definition log (ev : Event) (w : World) : World :=
  mkWorld (g w) (heap w) (config w) (calls w ++ [ev]).

(** The outside: for each call the module makes, whether it fails, given
    the history so far.  [sqlite3.connect], [Connection.close],
    [Connection.executescript] and [current_app.open_resource] live
    outside the module; their outcome is not decided by it. *)
Record Environment : Type := mkEnvironment {
  connect_outcome : list Event → string → Z → option exn;
  close_outcome : list Event → Ref → option exn;
  executescript_outcome : list Event → Ref → pystr → option exn;
  resource_outcome : list Event → string → result bytes
}.

(** ** State-and-exception monad *)

Definition M (A : Type) : Type := World → result A * World.

Definition ret {A} (a : A) : M A := fun w => (Ok a, w).

Definition bind {A B} (m : M A) (k : A → M B) : M B :=
  fun w =>
    match m w with
    | (Ok a, w') => k a w'
    | (Raise e, w') => (Raise e, w')
    end.

#[global] Instance M_ret : MRet M := @ret.
#[global] Instance M_bind : MBind M := fun A B k m => bind m k.

(** ** UTF-8, the codec of [bytes.decode] and of text handed to SQLite *)

(** Unicode scalar values: code points outside the surrogate range. *)
Definition scalar (c : Z) : Prop :=
  (0 ≤ c < 55296) ∨ (57344 ≤ c < 1114112).

Definition encode_char (c : Z) : bytes :=
  if c <? 128 then [c]
  else if c <? 2048 then [192 + c / 64; 128 + c mod 64]
  else if c <? 65536 then [224 + c / 4096; 128 + (c / 64) mod 64; 128 + c mod 64]
  else [240 + c / 262144; 128 + (c / 4096) mod 64; 128 + (c / 64) mod 64; 128 + c mod 64].

Definition str_encode (s : pystr) : bytes := concat (map encode_char s).

(** A continuation byte, 10xxxxxx. *)
Definition is_cont (b : Z) : bool := (128 <=? b) && (b <? 192).

(** Strict decoding: truncated sequences, stray continuation bytes,
    overlong forms, surrogates and values above U+10FFFF are errors. *)
Fixpoint bytes_decode (bs : bytes) : result pystr :=
  match bs with
  | [] => Ok []
  | b0 :: r0 =>
    if (0 <=? b0) && (b0 <? 128) then
      match bytes_decode r0 with
      | Ok s => Ok (b0 :: s)
      | Raise e => Raise e
      end
    else if (192 <=? b0) && (b0 <? 224) then
      match r0 with
      | b1 :: r1 =>
        let c := (b0 - 192) * 64 + (b1 - 128) in
        if is_cont b1 && (128 <=? c) then
          match bytes_decode r1 with
          | Ok s => Ok (c :: s)
          | Raise e => Raise e
          end
        else Raise UnicodeDecodeError
      | _ => Raise UnicodeDecodeError
      end
    else if (224 <=? b0) && (b0 <? 240) then
      match r0 with
      | b1 :: b2 :: r2 =>
        let c := (b0 - 224) * 4096 + (b1 - 128) * 64 + (b2 - 128) in
        if is_cont b1 && is_cont b2 && (2048 <=? c)
           && negb ((55296 <=? c) && (c <? 57344)) then
          match bytes_decode r2 with
          | Ok s => Ok (c :: s)
          | Raise e => Raise e
          end
        else Raise UnicodeDecodeError
      | _ => Raise UnicodeDecodeError
      end
    else if (240 <=? b0) && (b0 <? 248) then
      match r0 with
      | b1 :: b2 :: b3 :: r3 =>
        let c := (b0 - 240) * 262144 + (b1 - 128) * 4096
                 + (b2 - 128) * 64 + (b3 - 128) in
        if is_cont b1 && is_cont b2 && is_cont b3
           && (65536 <=? c) && (c <? 1114112) then
          match bytes_decode r3 with
          | Ok s => Ok (c :: s)
          | Raise e => Raise e
          end
        else Raise UnicodeDecodeError
      | _ => Raise UnicodeDecodeError
      end
    else Raise UnicodeDecodeError
  end.

(** ** The collaborators, as the module calls them *)

Section Manager.

Variable env : Environment.

(** ['db' in g] *)
Definition g_contains (k : string) : M bool :=
  fun w => (Ok (bool_decide (is_Some (g w !! k))), w).

(** [g.<k> = v] *)
Definition g_setattr (k : string) (v : pyobj) : M unit :=
  fun w => (Ok tt, set_g (insert k v) w).

(** [g.<k>] *)
Definition g_getattr (k : string) : M pyobj :=
  fun w =>
    match g w !! k with
    | Some v => (Ok v, w)
    | None => (Raise (AttributeError k), w)
    end.

(** [g.pop(k, default)] *)
Definition g_pop (k : string) (default : pyobj) : M pyobj :=
  fun w =>
    match g w !! k with
    | Some v => (Ok v, set_g (delete k) w)
    | None => (Ok default, w)
    end.

(** [current_app.config[k]] *)
Definition config_getitem (k : string) : M string :=
  fun w =>
    match config w !! k with
    | Some v => (Ok v, w)
    | None => (Raise (KeyError k), w)
    end.

(** [sqlite3.connect(path, detect_types=flags)]: on success a new
    connection object is allocated, with the driver's defaults for the
    other attributes. *)
Definition sqlite3_connect (path : string) (flags : Z) : M pyobj :=
  fun w =>
    match connect_outcome env (calls w) path flags with
    | Some e => (Raise e, log (EvConnect path flags (Raise e)) w)
    | None =>
      let r := fresh (dom (heap w)) in
      (Ok (PyConn r),
       log (EvConnect path flags (Ok r))
         (set_heap (insert r (mkConnection path flags TupleRows false)) w))
    end.

(** [obj.row_factory = rf] *)
Definition set_row_factory (obj : pyobj) (rf : RowFactory) : M unit :=
  fun w =>
    match obj with
    | PyConn r =>
      match heap w !! r with
      | Some c =>
        (Ok tt,
         set_heap (insert r (mkConnection (conn_path c) (conn_detect_types c)
                                          rf (conn_closed c))) w)
      | None => (Raise (AttributeError "row_factory"), w)
      end
    | PyNone => (Raise (AttributeError "row_factory"), w)
    end.

Definition mark_closed (c : Connection) : Connection :=
  mkConnection (conn_path c) (conn_detect_types c) (conn_row_factory c) true.

(** [obj.close()] *)
Definition conn_close (obj : pyobj) : M unit :=
  fun w =>
    match obj with
    | PyConn r =>
      match close_outcome env (calls w) r with
      | Some e => (Raise e, log (EvClose r (Some e)) w)
      | None => (Ok tt, log (EvClose r None) (set_heap (alter mark_closed r) w))
      end
    | PyNone => (Raise (AttributeError "close"), w)
    end.

(** [obj.<name>] for a method of a connection: the bound method, known by
    the connection it is bound to; [None] has no such attribute. *)
Definition conn_method (obj : pyobj) (name : string) : M Ref :=
  fun w =>
    match obj with
    | PyConn r => (Ok r, w)
    | PyNone => (Raise (AttributeError name), w)
    end.

(** Calling the bound method [executescript] of [r] on [script]. *)
Definition executescript (r : Ref) (script : pystr) : M unit :=
  fun w =>
    match executescript_outcome env (calls w) r script with
    | Some e => (Raise e, log (EvExecuteScript r script (Some e)) w)
    | None => (Ok tt, log (EvExecuteScript r script None) w)
    end.

(** [with current_app.open_resource(name) as f: body(f)].  The file is
    opened for reading in binary mode and stands for its content; it is
    closed when the block is left, whether normally or by an exception. *)
Definition with_open_resource {A} (name : string) (body : bytes → M A) : M A :=
  fun w =>
    match resource_outcome env (calls w) name with
    | Raise e => (Raise e, log (EvOpenResource name (Raise e)) w)
    | Ok data =>
      let '(r, w') := body data (log (EvOpenResource name (Ok data)) w) in
      (r, log (EvCloseResource name) w')
    end.

(** [f.read()] on a freshly opened file: its whole content. *)
Definition file_read (f : bytes) : M bytes := ret f.

(** [b.decode('utf8')] *)
Definition decode_utf8 (b : bytes) : M pystr :=
  fun w => (bytes_decode b, w).

(** [click.echo(msg)] *)
Definition click_echo (msg : string) : M unit :=
  fun w => (Ok tt, log (EvEcho msg) w).

(** ** The module *)

(** [get_db], lines 9-32. *)
Definition get_db : M pyobj :=
  present ← g_contains "db";
  (if negb present then
     path ← config_getitem "DATABASE";
     c ← sqlite3_connect path PARSE_DECLTYPES;
     g_setattr "db" c;;
     d ← g_getattr "db";
     set_row_factory d Row
   else ret tt);;
  g_getattr "db".

(** [close_db], lines 35-52.  The argument [e] is never read. *)
Definition close_db (e : option exn) : M unit :=
  db ← g_pop "db" PyNone;
  if negb (is_none db) then conn_close db else ret tt.

(** [init_db], lines 56-60.  In [db.executescript(f.read().decode('utf8'))]
    the method is looked up before its argument is evaluated. *)
Definition init_db : M unit :=
  db ← get_db;
  with_open_resource "schema.sql" (fun f =>
    method ← conn_method db "executescript";
    data ← file_read f;
    script ← decode_utf8 data;
    executescript method script).

(** [init_db_command], lines 63-67. *)
Definition init_db_command : M unit :=
  init_db;;
  click_echo "Initialized the database.".

End Manager.

(** ** Sequences of calls within one context *)

(** [n] consecutive calls of [get_db]: the values returned, and the world
    after the last call. *)
Fixpoint acquire_n (env : Environment) (n : nat) (w : World)
  : list (result pyobj) * World :=
  match n with
  | O => ([], w)
  | S n' =>
    let '(r, w') := get_db env w in
    let '(rs, w'') := acquire_n env n' w' in
    (r :: rs, w'')
  end.

(** [n] consecutive calls of [close_db], each with its own argument. *)
Fixpoint release_n (env : Environment) (es : list (option exn)) (w : World)
  : list (result unit) * World :=
  match es with
  | [] => ([], w)
  | e :: es' =>
    let '(r, w') := close_db env e w in
    let '(rs, w'') := release_n env es' w' in
    (r :: rs, w'')
  end.

(** What a request handler can do with the module while its context is
    active.  A handler may catch an exception and carry on, so a run goes
    on after a call that raised. *)
Inductive op : Type :=
  | Acquire
  | Release (e : option exn)
  | InitSchema
  | InitCommand.

Definition run_op (env : Environment) (o : op) (w : World) : World :=
  match o with
  | Acquire => snd (get_db env w)
  | Release e => snd (close_db env e w)
  | InitSchema => snd (init_db env w)
  | InitCommand => snd (init_db_command env w)
  end.

Definition run_ops (env : Environment) (os : list op) (w : World) : World :=
  foldl (fun w' o => run_op env o w') w os.

(** The two states of the handle slot. *)
Inductive SlotState : Type :=
  | EMPTY
  | OPEN.

Definition slot_state (w : World) : SlotState :=
  match g w !! "db" with
  | Some _ => OPEN
  | None => EMPTY
  end.

(** The handle associated with the context, if any. *)
Definition associated (w : World) (r : Ref) : Prop :=
  g w !! "db" = Some (PyConn r).

(** ** The framework hooks the module registers with

    The contract of the host framework, as the module consumes it: an
    application keeps the list of teardown functions and the table of
    commands; a context starts with an empty namespace and, when it ends,
    calls the teardown functions in reverse order of registration, each
    with the optional error of the context. *)

Record Command : Type := mkCommand {
  cmd_name : string;
  cmd_params : list string;
  cmd_callback : M unit
}.

Record App : Type := mkApp {
  teardown_appcontext_funcs : list (option exn → M unit);
  cli_commands : gmap string Command
}.

(** [Flask(...)] before any registration. *)
Definition new_app : App := mkApp [] ∅.

(** [app.teardown_appcontext(f)] *)
Definition teardown_appcontext (f : option exn → M unit) (app : App) : App :=
  mkApp (teardown_appcontext_funcs app ++ [f]) (cli_commands app).

(** [app.cli.add_command(cmd)] *)
Definition add_command (cmd : Command) (app : App) : App :=
  mkApp (teardown_appcontext_funcs app) (<[cmd_name cmd := cmd]> (cli_commands app)).

(** The object bound to [init_db_command] by [@click.command('init-db')]:
    a command of that name, with no option and no argument declared. *)
Definition init_db_click_command (env : Environment) : Command :=
  mkCommand "init-db" [] (init_db_command env).

(** [init_app], lines 76-80. *)
Definition init_app (env : Environment) (app : App) : App :=
  add_command (init_db_click_command env)
    (teardown_appcontext (close_db env) app).

(** A context is pushed with a new, empty [g]. *)
Definition push_context (w : World) : World := set_g (fun _ => ∅) w.

Fixpoint run_teardown (fs : list (option exn → M unit)) (exc : option exn) : M unit :=
  match fs with
  | [] => mret tt
  | f :: fs' => f exc;; run_teardown fs' exc
  end.

(** The end of a context. *)
Definition do_teardown_appcontext (app : App) (exc : option exn) : M unit :=
  run_teardown (reverse (teardown_appcontext_funcs app)) exc.

(** Exit status of a command whose callback returned or raised: an
    exception that is not the framework's own leaves the interpreter with
    status 1. *)
Definition exit_status (r : result unit) : Z :=
  match r with
  | Ok _ => 0
  | Raise _ => 1
  end.

(** Running a registered command from the command line: the callback runs
    in a context of its own, which is torn down afterwards with the error
    of the callback, if any; an error of the teardown itself is the one
    that leaves the command. *)
Definition run_cli (app : App) (name : string) (w : World) : option (Z * World) :=
  match cli_commands app !! name with
  | None => None
  | Some cmd =>
    let '(r, w1) := cmd_callback cmd (push_context w) in
    let exc := match r with Ok _ => None | Raise e => Some e end in
    let '(rt, w2) := do_teardown_appcontext app exc w1 in
    Some (exit_status (match rt with Raise e => Raise e | Ok _ => r end), w2)
  end.

(** What was written to standard output. *)
Definition stdout (w : World) : list string :=
  omap (fun ev => match ev with EvEcho msg => Some msg | _ => None end) (calls w).

(** ** The timestamp converter and the read path it is registered on *)

(** A text literal, as the sequence of its code points. *)
Fixpoint pystr_of_string (s : string) : pystr :=
  match s with
  | EmptyString => []
  | String a s' => Z.of_nat (Ascii.nat_of_ascii a) :: pystr_of_string s'
  end.

(** [str.upper] on the ASCII letters of a type name. *)
Definition ascii_upper (a : Ascii.ascii) : Ascii.ascii :=
  let n := Ascii.nat_of_ascii a in
  if ((97 <=? n) && (n <=? 122))%nat then Ascii.ascii_of_nat (n - 32) else a.

Fixpoint str_upper (s : string) : string :=
  match s with
  | EmptyString => EmptyString
  | String a s' => String (ascii_upper a) (str_upper s')
  end.

(** The driver looks a declared type up by its first word: the type is
    cut at the first blank or opening parenthesis. *)
Fixpoint decltype_word (s : string) : string :=
  match s with
  | EmptyString => EmptyString
  | String a s' =>
    if (Ascii.eqb a " "%char || Ascii.eqb a "("%char)%bool then EmptyString
    else String a (decltype_word s')
  end.

(** *** The storage engine: how SQLite keeps a text value

    (SQLite, "Datatypes In SQLite", sections 3 and 3.1.)  A column has an
    affinity derived from its declared type; a text value bound to a column
    of numeric affinity is stored as a number when it reads as a numeric
    literal, and as text otherwise. *)

Inductive Affinity : Type :=
  | AffInteger
  | AffText
  | AffBlob
  | AffReal
  | AffNumeric.

Fixpoint str_prefix (p s : string) : bool :=
  match p, s with
  | EmptyString, _ => true
  | String a p', String b s' => Ascii.eqb a b && str_prefix p' s'
  | String _ _, EmptyString => false
  end.

Fixpoint str_contains (p s : string) : bool :=
  str_prefix p s ||
  match s with
  | EmptyString => false
  | String _ s' => str_contains p s'
  end.

Definition column_affinity (decltype : string) : Affinity :=
  let d := str_upper decltype in
  if str_contains "INT" d then AffInteger
  else if str_contains "CHAR" d || str_contains "CLOB" d || str_contains "TEXT" d
  then AffText
  else if str_contains "BLOB" d || String.eqb d "" then AffBlob
  else if str_contains "REAL" d || str_contains "FLOA" d || str_contains "DOUB" d
  then AffReal
  else AffNumeric.

(** A stored value.  A number that was not written as a 64-bit integer
    literal is kept as the literal it came from: its value is not
    modelled. *)
Inductive Cell : Type :=
  | CNull
  | CInt (z : Z)
  | CNumber (literal : pystr)
  | CText (b : bytes)
  | CBlob (b : bytes).

Definition is_digit (c : Z) : bool := (48 <=? c) && (c <=? 57).

Definition is_space (c : Z) : bool :=
  (c =? 32) || ((9 <=? c) && (c <=? 13)).

Fixpoint skip_spaces (s : pystr) : pystr :=
  match s with
  | c :: s' => if is_space c then skip_spaces s' else s
  | [] => []
  end.

(** The longest prefix of digits, and what follows it. *)
Fixpoint span_digits (s : pystr) : pystr * pystr :=
  match s with
  | c :: s' =>
    if is_digit c then let '(ds, rest) := span_digits s' in (c :: ds, rest)
    else ([], s)
  | [] => ([], [])
  end.

Definition digits_value (ds : pystr) : Z :=
  foldl (fun acc c => acc * 10 + (c - 48)) 0 ds.

Inductive NumLit : Type :=
  | NotNumeric
  | IntLit (z : Z)
  | RealLit.

(** A numeric literal: blanks, a sign, digits with at most one point and
    at least one digit, an exponent, blanks; nothing else. *)
Definition numeric_literal (s : pystr) : NumLit :=
  let s1 := skip_spaces s in
  let '(neg, s2) :=
    match s1 with
    | 45 :: r => (true, r)
    | 43 :: r => (false, r)
    | _ => (false, s1)
    end in
  let '(ip, s3) := span_digits s2 in
  let '(point, fp, s4) :=
    match s3 with
    | 46 :: r => let '(ds, rest) := span_digits r in (true, ds, rest)
    | _ => (false, [], s3)
    end in
  match (ip ++ fp)%list with
  | [] => NotNumeric
  | _ =>
    let '(expo, well_formed, s5) :=
      match s4 with
      | c :: r =>
        if (c =? 101) || (c =? 69) then
          let r' := match r with
                    | 45 :: r'' => r''
                    | 43 :: r'' => r''
                    | _ => r
                    end in
          let '(ds, rest) := span_digits r' in
          (true, negb (bool_decide (ds = [])), rest)
        else (false, true, s4)
      | [] => (false, true, s4)
      end in
    match skip_spaces s5 with
    | [] =>
      if negb well_formed then NotNumeric
      else if point || expo then RealLit
      else IntLit (if neg then - digits_value ip else digits_value ip)
    | _ => NotNumeric
    end
  end.

Definition scalarb (c : Z) : bool :=
  ((0 <=? c) && (c <? 55296)) || ((57344 <=? c) && (c <? 1114112)).

(** Binding a [str] parameter: the text is handed over as UTF-8. *)
Definition bind_text (s : pystr) : result bytes :=
  if forallb scalarb s then Ok (str_encode s) else Raise UnicodeEncodeError.

(** A text value written to a column of the given affinity. *)
Definition store_text (aff : Affinity) (s : pystr) : result Cell :=
  match bind_text s with
  | Raise e => Raise e
  | Ok b =>
    Ok match aff with
       | AffText | AffBlob => CText b
       | AffInteger | AffNumeric | AffReal =>
         match numeric_literal s with
         | NotNumeric => CText b
         | IntLit z =>
           match aff with
           | AffReal => CNumber s
           | _ =>
             if (-9223372036854775808 <=? z) && (z <=? 9223372036854775807)
             then CInt z else CNumber s
           end
         | RealLit => CNumber s
         end
       end
  end.

Fixpoint digits_of (fuel : nat) (n : Z) (acc : pystr) : pystr :=
  match fuel with
  | O => acc
  | S fuel' =>
    let acc' := (48 + n mod 10) :: acc in
    if n / 10 =? 0 then acc' else digits_of fuel' (n / 10) acc'
  end.

(** The decimal text of an integer. *)
Definition render_int (z : Z) : pystr :=
  if z <? 0 then 45 :: digits_of (S (Z.to_nat (Z.log2 (- z)))) (- z) []
  else digits_of (S (Z.to_nat (Z.log2 z))) z [].

Section Timestamp.

(** The structured date/time type and [datetime.fromisoformat] are the
    standard library's; so is the text the engine renders a non-integer
    number with. *)
Variable datetime : Type.
Variable fromisoformat : pystr → result datetime.
Variable render_number : pystr → bytes.

(** Values a fetched column can have. *)
Inductive pyval : Type :=
  | VNone
  | VInt (z : Z)
  | VNumber (literal : pystr)
  | VStr (s : pystr)
  | VBytes (b : bytes)
  | VDatetime (d : datetime).

(** The bytes of a cell, as the driver hands them to a converter; there
    are none for NULL, nor for a text or a blob of length zero. *)
Definition column_bytes (c : Cell) : option bytes :=
  match c with
  | CNull => None
  | CInt z => Some (render_int z)
  | CNumber lit => Some (render_number lit)
  | CText [] | CBlob [] => None
  | CText b | CBlob b => Some b
  end.

(** The registry of converters of the driver, one per process; names are
    kept in upper case. *)
Abbreviation Registry := (gmap string (bytes → result pyval)).

(** [sqlite3.register_converter(typename, converter)] *)
Definition register_converter (typename : string)
    (converter : bytes → result pyval) (reg : Registry) : Registry :=
  <[str_upper typename := converter]> reg.

(** [lambda v: datetime.fromisoformat(v.decode())], line 71. *)
Definition timestamp_converter (v : bytes) : result pyval :=
  match bytes_decode v with
  | Raise e => Raise e
  | Ok s =>
    match fromisoformat s with
    | Raise e => Raise e
    | Ok d => Ok (VDatetime d)
    end
  end.

(** The statement the module runs when it is loaded, lines 70-72. *)
Definition module_load (reg : Registry) : Registry :=
  register_converter "timestamp" timestamp_converter reg.

(** Reading one column through a connection opened with [detect_types]:
    with [PARSE_DECLTYPES] set the converter registered for the first word
    of the declared type, if any, gets the bytes of the cell, and a cell
    without bytes reads as [None]; otherwise the value is built from the
    storage class of the cell. *)
Definition fetch_value (detect_types : Z) (reg : Registry)
    (decltype : string) (c : Cell) : result pyval :=
  let converter :=
    if Z.testbit detect_types 0
    then reg !! str_upper (decltype_word decltype)
    else None in
  match converter with
  | Some conv =>
    match column_bytes c with
    | None => Ok VNone
    | Some b => conv b
    end
  | None =>
    match c with
    | CNull => Ok VNone
    | CInt z => Ok (VInt z)
    | CNumber lit => Ok (VNumber lit)
    | CText b =>
      match bytes_decode b with
      | Ok s => Ok (VStr s)
      | Raise e => Raise e
      end
    | CBlob b => Ok (VBytes b)
    end
  end.

(** Writing the text [s] to a column declared [decltype], then reading the
    column back through the connection [c]. *)
Definition read_back (c : Connection) (reg : Registry)
    (decltype : string) (s : pystr) : result pyval :=
  match store_text (column_affinity decltype) s with
  | Raise e => Raise e
  | Ok cell => fetch_value (conn_detect_types c) reg decltype cell
  end.

(** Parsing the text directly. *)
Definition parse_directly (s : pystr) : result pyval :=
  match fromisoformat s with
  | Raise e => Raise e
  | Ok d => Ok (VDatetime d)
  end.

End Timestamp.

Arguments VNone {datetime}.
Arguments VInt {datetime} z.
Arguments VNumber {datetime} literal.
Arguments VStr {datetime} s.
Arguments VBytes {datetime} b.
Arguments VDatetime {datetime} d.

(** *** Calendar dates

    The part of [datetime.fromisoformat] that reads a calendar date, in
    basic format [YYYYMMDD] or in extended format [YYYY-MM-DD]: a day of
    the proleptic Gregorian calendar, years 1 to 9999.  Used to run the
    read path on concrete dates. *)

Definition is_leap (y : Z) : bool :=
  ((y mod 4 =? 0) && negb (y mod 100 =? 0)) || (y mod 400 =? 0).

Definition days_in_month (y m : Z) : Z :=
  if m =? 2 then (if is_leap y then 29 else 28)
  else if (m =? 4) || (m =? 6) || (m =? 9) || (m =? 11) then 30
  else 31.

Definition make_date (ys ms ds : pystr) : result (Z * Z * Z) :=
  let y := digits_value ys in
  let m := digits_value ms in
  let d := digits_value ds in
  if forallb is_digit (ys ++ ms ++ ds)
     && (1 <=? y) && (1 <=? m) && (m <=? 12) && (1 <=? d) && (d <=? days_in_month y m)
  then Ok (y, m, d)
  else Raise ValueError.

Definition iso_calendar_date (s : pystr) : result (Z * Z * Z) :=
  match s with
  | [y1; y2; y3; y4; m1; m2; d1; d2] =>
    make_date [y1; y2; y3; y4] [m1; m2] [d1; d2]
  | [y1; y2; y3; y4; 45; m1; m2; 45; d1; d2] =>
    make_date [y1; y2; y3; y4] [m1; m2] [d1; d2]
  | _ => Raise ValueError
  end.

(** ** Invariants of a context *)

(** Every reference kept in the slot points to an object of the heap. *)
Definition no_dangling (w : World) : Prop :=
  ∀ r, g w !! "db" = Some (PyConn r) → r ∈ dom (heap w).

(** [w] is a state of the context that started in [w0]: the trace and the
    heap have only grown, the slot holds nothing but a connection of the
    heap, and every connection opened since the start is either the one
    in the slot or has been handed to [close]. *)
Definition ctx_inv (w0 w : World) : Prop :=
  ∃ t, calls w = (calls w0 ++ t)%list
     ∧ dom (heap w0) ⊆ dom (heap w)
     ∧ (∀ v, g w !! "db" = Some v → ∃ r, v = PyConn r ∧ r ∈ dom (heap w))
     ∧ (∀ r, r ∈ dom (heap w) → r ∉ dom (heap w0) →
          associated w r ∨ (∃ o, EvClose r o ∈ t)).

(** A connection opened in the context that started in [w0] and not yet
    handed to [close]. *)
Definition unreleased (w0 w : World) (r : Ref) : Prop :=
  r ∈ dom (heap w) ∧ (r ∉ dom (heap w0))
  ∧ (∀ o, EvClose r o ∉ drop (length (calls w0)) (calls w)).

(** The calls [init_db] makes once it holds its connection: it opens and
    closes the resource and runs a script, nothing else. *)
Definition schema_event (ev : Event) : Prop :=
  match ev with
  | EvOpenResource _ _ | EvCloseResource _ | EvExecuteScript _ _ _ => True
  | _ => False
  end.

(** ** Concrete environments and worlds *)

Definition schema_sql : bytes :=
  pystr_of_string
    "CREATE TABLE user (id INTEGER PRIMARY KEY, username TEXT UNIQUE NOT NULL);".

(** Every call to the outside succeeds. *)
Definition env_ok : Environment :=
  mkEnvironment (fun _ _ _ => None) (fun _ _ => None) (fun _ _ _ => None)
    (fun _ _ => Ok schema_sql).

(** The storage path names a directory that does not exist. *)
Definition env_no_directory : Environment :=
  mkEnvironment (fun _ _ _ => Some OperationalError) (fun _ _ => None)
    (fun _ _ _ => None) (fun _ _ => Ok schema_sql).

(** The context is torn down on another thread than the one that opened
    the connection: the driver refuses to close it. *)
Definition env_other_thread : Environment :=
  mkEnvironment (fun _ _ _ => None) (fun _ _ => Some ProgrammingError)
    (fun _ _ _ => None) (fun _ _ => Ok schema_sql).

(** A configured application at the start of a context. *)
Definition world0 : World :=
  mkWorld ∅ ∅ {["DATABASE" := "instance/flaskr.sqlite"]} [].

(** The connection [get_db] opens in [world0]. *)
Definition conn0 : Connection :=
  mkConnection "instance/flaskr.sqlite" PARSE_DECLTYPES Row false.

(** [world0] after a first [get_db]. *)
Definition world1 : World :=
  mkWorld {["db" := PyConn 1]} {[1%positive := conn0]}
          {["DATABASE" := "instance/flaskr.sqlite"]}
          [EvConnect "instance/flaskr.sqlite" PARSE_DECLTYPES (Ok 1%positive)].

(** ** Further invariants, environments and worlds *)

(** The calls the module makes besides opening and closing connections:
    those of [init_db], and the confirmation of the command. *)
Definition module_event (ev : Event) : Prop :=
  schema_event ev ∨ ev = EvEcho "Initialized the database.".

(** The slot holds nothing but an open connection on [path], opened the
    way [get_db] opens one. *)
Definition managed (path : string) (w : World) : Prop :=
  ∀ v, g w !! "db" = Some v →
    ∃ r, v = PyConn r
       ∧ heap w !! r = Some (mkConnection path PARSE_DECLTYPES Row false).

(** A call of the driver that opens [path] with declared-type detection,
    or any call that opens nothing. *)
Definition configured_connect (path : string) (ev : Event) : Prop :=
  match ev with
  | EvConnect p flags _ => p = path ∧ flags = PARSE_DECLTYPES
  | _ => True
  end.

(** How many times a run invokes the command. *)
Fixpoint count_init_commands (os : list op) : nat :=
  match os with
  | [] => O
  | InitCommand :: os' => S (count_init_commands os')
  | _ :: os' => count_init_commands os'
  end.

(** An environment in which every call succeeds and the schema resource
    holds [data]. *)
Definition obliging (env : Environment) (data : bytes) : Prop :=
  (∀ t path flags, connect_outcome env t path flags = None)
  ∧ (∀ t r, close_outcome env t r = None)
  ∧ (∀ t r script, executescript_outcome env t r script = None)
  ∧ (∀ t, resource_outcome env t "schema.sql" = Ok data).

(** An application that has no storage path configured. *)
Definition world_unconfigured : World := mkWorld ∅ ∅ ∅ [].

(** A context in which the application also keeps something of its own
    in [g]. *)
Definition world_with_user : World :=
  mkWorld {["user" := PyNone]} ∅ {["DATABASE" := "instance/flaskr.sqlite"]} [].

(** The schema resource is not UTF-8. *)
Definition env_bad_schema : Environment :=
  mkEnvironment (fun _ _ _ => None) (fun _ _ => None) (fun _ _ _ => None)
    (fun _ _ => Ok [67; 255; 254]).

(** The schema resource is missing. *)
Definition env_no_schema : Environment :=
  mkEnvironment (fun _ _ _ => None) (fun _ _ => None) (fun _ _ _ => None)
    (fun _ _ => Raise FileNotFoundError).

(** A teardown function of another part of the application, which fails. *)
Definition failing_teardown (exc : option exn) : M unit :=
  fun w => (Raise ValueError, w).

(** An application that registered [failing_teardown] before this module
    is set up. *)
Definition app_with_failing_teardown : App :=
  teardown_appcontext failing_teardown new_app.

(** * Properties *)

Ltac unfold_m :=
  unfold mbind, M_bind, bind, mret, M_ret, ret in *.

Section ManagerFacts.

Variable env : Environment.

(** ** How each function acts on the world *)

Lemma get_db_cached (w : World) (v : pyobj) :
  g w !! "db" = Some v → get_db env w = (Ok v, w).
Proof.
  intros Hv. unfold get_db, g_contains, g_getattr. unfold_m.
  rewrite Hv. simpl. by rewrite Hv.
Qed.

Lemma get_db_no_config (w : World) :
  g w !! "db" = None → config w !! "DATABASE" = None →
  get_db env w = (Raise (KeyError "DATABASE"), w).
Proof.
  intros Hg Hc. unfold get_db, g_contains, config_getitem. unfold_m.
  rewrite Hg. simpl. by rewrite Hc.
Qed.

Lemma get_db_open_fails (w : World) (path : string) (e : exn) :
  g w !! "db" = None → config w !! "DATABASE" = Some path →
  connect_outcome env (calls w) path PARSE_DECLTYPES = Some e →
  get_db env w = (Raise e, log (EvConnect path PARSE_DECLTYPES (Raise e)) w).
Proof.
  intros Hg Hc Ho. unfold get_db, g_contains, config_getitem, sqlite3_connect.
  unfold_m. rewrite Hg. simpl. rewrite Hc. by rewrite Ho.
Qed.

Lemma get_db_opens (w : World) (path : string) :
  g w !! "db" = None → config w !! "DATABASE" = Some path →
  connect_outcome env (calls w) path PARSE_DECLTYPES = None →
  get_db env w =
    (Ok (PyConn (fresh (dom (heap w)))),
     mkWorld (<["db" := PyConn (fresh (dom (heap w)))]> (g w))
             (<[fresh (dom (heap w)) := mkConnection path PARSE_DECLTYPES Row false]>
                (heap w))
             (config w)
             (calls w ++ [EvConnect path PARSE_DECLTYPES (Ok (fresh (dom (heap w))))])).
Proof.
  intros Hg Hc Ho.
  unfold get_db, g_contains, config_getitem, sqlite3_connect, g_setattr,
    g_getattr, set_row_factory.
  unfold_m. rewrite Hg. simpl. rewrite Hc, Ho. simpl.
  rewrite !lookup_insert_eq. simpl. rewrite !lookup_insert_eq.
  unfold set_heap, set_g, log. simpl.
  by rewrite lookup_insert_eq, insert_insert_eq.
Qed.

Lemma close_db_empty (e : option exn) (w : World) :
  g w !! "db" = None → close_db env e w = (Ok tt, w).
Proof.
  intros Hg. unfold close_db, g_pop. unfold_m. by rewrite Hg.
Qed.

Lemma close_db_none (e : option exn) (w : World) :
  g w !! "db" = Some PyNone → close_db env e w = (Ok tt, set_g (delete "db") w).
Proof.
  intros Hg. unfold close_db, g_pop. unfold_m. by rewrite Hg.
Qed.

Lemma close_db_conn (e : option exn) (w : World) (r : Ref) :
  g w !! "db" = Some (PyConn r) →
  close_db env e w = conn_close env (PyConn r) (set_g (delete "db") w).
Proof.
  intros Hg. unfold close_db, g_pop. unfold_m. by rewrite Hg.
Qed.

(** A successful [get_db] leaves the value it returns in the slot. *)
Lemma get_db_ok_slot (w w' : World) (h : pyobj) :
  get_db env w = (Ok h, w') → g w' !! "db" = Some h.
Proof.
  intros H. destruct (g w !! "db") as [v|] eqn:Hg.
  - rewrite (get_db_cached _ _ Hg) in H. by simplify_eq.
  - destruct (config w !! "DATABASE") as [path|] eqn:Hc.
    + destruct (connect_outcome env (calls w) path PARSE_DECLTYPES) as [e|] eqn:Ho.
      * rewrite (get_db_open_fails _ _ _ Hg Hc Ho) in H. discriminate.
      * rewrite (get_db_opens _ _ Hg Hc Ho) in H. simplify_eq. simpl.
        apply lookup_insert_eq.
    + rewrite (get_db_no_config _ Hg Hc) in H. discriminate.
Qed.

(** A [get_db] that raises changes neither the slot nor the heap. *)
Lemma get_db_raise_frame (w w' : World) (e : exn) :
  get_db env w = (Raise e, w') → g w' = g w ∧ heap w' = heap w.
Proof.
  intros H. destruct (g w !! "db") as [v|] eqn:Hg.
  - rewrite (get_db_cached _ _ Hg) in H. discriminate.
  - destruct (config w !! "DATABASE") as [path|] eqn:Hc.
    + destruct (connect_outcome env (calls w) path PARSE_DECLTYPES) as [e'|] eqn:Ho.
      * rewrite (get_db_open_fails _ _ _ Hg Hc Ho) in H. by simplify_eq.
      * rewrite (get_db_opens _ _ Hg Hc Ho) in H. discriminate.
    + rewrite (get_db_no_config _ Hg Hc) in H. by simplify_eq.
Qed.

(** [conn_close] does not touch [g]. *)
Lemma conn_close_g (o : pyobj) (w : World) :
  g (snd (conn_close env o w)) = g w.
Proof.
  unfold conn_close. destruct o as [|r]; [done|].
  by destruct (close_outcome env (calls w) r).
Qed.

Lemma close_db_slot (e : option exn) (w : World) :
  g (snd (close_db env e w)) !! "db" = None.
Proof.
  destruct (g w !! "db") as [[|r]|] eqn:Hg.
  - rewrite (close_db_none _ _ Hg). simpl. apply lookup_delete_eq.
  - rewrite (close_db_conn _ _ _ Hg), conn_close_g. simpl. apply lookup_delete_eq.
  - by rewrite (close_db_empty _ _ Hg).
Qed.

(** ** Claims about [get_db] *)

(** C1. Once a call of [get_db] has returned a handle [h], any number of
    further calls with no [close_db] in between each return [h] itself,
    and none of them changes the slot (nor anything else in the world). *)
Theorem acquire_returns_same_handle (w0 w1 : World) (h : pyobj) (n : nat) :
  get_db env w0 = (Ok h, w1) →
  acquire_n env n w1 = (replicate n (Ok h), w1).
Proof.
  intros H. apply get_db_ok_slot in H.
  induction n as [|n IH]; [done|].
  simpl. rewrite (get_db_cached _ _ H). by rewrite IH.
Qed.

(** C2. With the slot empty and the storage path configured, [get_db]
    calls the driver once, with exactly the configured path and the
    declared-type detection flag; when the driver opens the storage, the
    handle returned is a new connection object on that path, with
    declared-type detection on and rows addressable by name, and it is the
    one kept in the slot. *)
Theorem first_acquire_opens_configured (w : World) (path : string) :
  g w !! "db" = None →
  config w !! "DATABASE" = Some path →
  (∃ res, calls (snd (get_db env w))
          = (calls w ++ [EvConnect path PARSE_DECLTYPES res])%list)
  ∧ (connect_outcome env (calls w) path PARSE_DECLTYPES = None →
     ∃ r w',
       get_db env w = (Ok (PyConn r), w')
       ∧ (r ∉ dom (heap w))
       ∧ heap w' = <[r := mkConnection path PARSE_DECLTYPES Row false]> (heap w)
       ∧ Z.testbit (conn_detect_types (mkConnection path PARSE_DECLTYPES Row false)) 0
         = true
       ∧ g w' = <["db" := PyConn r]> (g w)
       ∧ associated w' r
       ∧ calls w' = (calls w ++ [EvConnect path PARSE_DECLTYPES (Ok r)])%list).
Proof.
  intros Hg Hc. split.
  - destruct (connect_outcome env (calls w) path PARSE_DECLTYPES) as [e|] eqn:Ho.
    + rewrite (get_db_open_fails _ _ _ Hg Hc Ho). by eexists.
    + rewrite (get_db_opens _ _ Hg Hc Ho). by eexists.
  - intros Ho. eexists _, _. split; [apply (get_db_opens _ _ Hg Hc Ho)|].
    simpl. split_and!; try done.
    + apply is_fresh.
    + unfold associated. simpl. apply lookup_insert_eq.
Qed.

(** C10. When the driver fails to open the storage, [get_db] raises the
    driver's error and leaves the slot as it was, empty, and the heap
    unchanged; the next [get_db] in the context asks the driver again, and
    returns a new connection if the driver then succeeds. *)
Theorem failed_acquire_leaves_slot_empty (w : World) (path : string) (e : exn) :
  g w !! "db" = None →
  config w !! "DATABASE" = Some path →
  connect_outcome env (calls w) path PARSE_DECLTYPES = Some e →
  ∃ w',
    get_db env w = (Raise e, w')
    ∧ g w' = g w
    ∧ heap w' = heap w
    ∧ slot_state w' = EMPTY
    ∧ (∃ res, calls (snd (get_db env w'))
              = (calls w' ++ [EvConnect path PARSE_DECLTYPES res])%list)
    ∧ (connect_outcome env (calls w') path PARSE_DECLTYPES = None →
       ∃ r w'', get_db env w' = (Ok (PyConn r), w'')
                ∧ (r ∉ dom (heap w)) ∧ associated w'' r).
Proof.
  intros Hg Hc Ho. eexists. split; [apply (get_db_open_fails _ _ _ Hg Hc Ho)|].
  set (w' := log _ w).
  assert (Hg' : g w' !! "db" = None) by done.
  assert (Hc' : config w' !! "DATABASE" = Some path) by done.
  split_and!; try done.
  - unfold slot_state. by rewrite Hg'.
  - destruct (connect_outcome env (calls w') path PARSE_DECLTYPES) as [e'|] eqn:Ho'.
    + rewrite (get_db_open_fails _ _ _ Hg' Hc' Ho'). by eexists.
    + rewrite (get_db_opens _ _ Hg' Hc' Ho'). by eexists.
  - intros Ho'. eexists _, _. split; [apply (get_db_opens _ _ Hg' Hc' Ho')|].
    split; [apply is_fresh|]. unfold associated. simpl. apply lookup_insert_eq.
Qed.

(** ** Claims about [close_db] *)

(** C9. [close_db] takes the handle out of the slot first and only then
    closes it: the close is attempted in a world whose slot is already
    empty, it never writes to the slot, and so the slot is empty
    afterwards whether the close returns or raises. *)
Theorem release_empties_slot_before_close (e : option exn) (w : World) (r : Ref) :
  associated w r →
  close_db env e w = conn_close env (PyConn r) (set_g (delete "db") w)
  ∧ g (set_g (delete "db") w) !! "db" = None
  ∧ (∀ ex, close_outcome env (calls w) r = Some ex →
       fst (close_db env e w) = Raise ex)
  ∧ g (snd (close_db env e w)) !! "db" = None.
Proof.
  intros Ha. split_and!.
  - by apply close_db_conn.
  - simpl. apply lookup_delete_eq.
  - intros ex Hex. rewrite (close_db_conn _ _ _ Ha). simpl. by rewrite Hex.
  - apply close_db_slot.
Qed.

(** The four ways a call of [get_db] can go. *)
Lemma get_db_cases (w : World) :
  (∃ v, g w !! "db" = Some v ∧ get_db env w = (Ok v, w))
  ∨ (g w !! "db" = None ∧ config w !! "DATABASE" = None
     ∧ get_db env w = (Raise (KeyError "DATABASE"), w))
  ∨ (∃ path e, g w !! "db" = None ∧ config w !! "DATABASE" = Some path
     ∧ connect_outcome env (calls w) path PARSE_DECLTYPES = Some e
     ∧ get_db env w = (Raise e, log (EvConnect path PARSE_DECLTYPES (Raise e)) w))
  ∨ (∃ path, g w !! "db" = None ∧ config w !! "DATABASE" = Some path
     ∧ connect_outcome env (calls w) path PARSE_DECLTYPES = None
     ∧ get_db env w =
         (Ok (PyConn (fresh (dom (heap w)))),
          mkWorld (<["db" := PyConn (fresh (dom (heap w)))]> (g w))
            (<[fresh (dom (heap w)) := mkConnection path PARSE_DECLTYPES Row false]>
               (heap w))
            (config w)
            (calls w ++ [EvConnect path PARSE_DECLTYPES (Ok (fresh (dom (heap w))))]))).
Proof.
  destruct (g w !! "db") as [v|] eqn:Hg.
  { left. exists v. eauto using get_db_cached. }
  destruct (config w !! "DATABASE") as [path|] eqn:Hc.
  2:{ right; left. eauto using get_db_no_config. }
  destruct (connect_outcome env (calls w) path PARSE_DECLTYPES) as [e|] eqn:Ho.
  - right; right; left. exists path, e. eauto using get_db_open_fails.
  - right; right; right. exists path. eauto using get_db_opens.
Qed.

(** The three ways a call of [close_db] can go. *)
Lemma close_db_cases (e : option exn) (w : World) :
  (g w !! "db" = None ∧ close_db env e w = (Ok tt, w))
  ∨ (g w !! "db" = Some PyNone ∧ close_db env e w = (Ok tt, set_g (delete "db") w))
  ∨ (∃ r, g w !! "db" = Some (PyConn r)
     ∧ ((∃ ex, close_outcome env (calls w) r = Some ex
         ∧ close_db env e w
           = (Raise ex, log (EvClose r (Some ex)) (set_g (delete "db") w)))
        ∨ (close_outcome env (calls w) r = None
           ∧ close_db env e w
             = (Ok tt, log (EvClose r None)
                         (set_heap (alter mark_closed r) (set_g (delete "db") w)))))).
Proof.
  destruct (g w !! "db") as [[|r]|] eqn:Hg.
  - right; left. eauto using close_db_none.
  - right; right. exists r. split; [done|].
    rewrite (close_db_conn _ _ _ Hg). unfold conn_close. simpl.
    destruct (close_outcome env (calls w) r) as [ex|]; eauto.
  - left. eauto using close_db_empty.
Qed.

Lemma get_db_config (w : World) : config (snd (get_db env w)) = config w.
Proof.
  destruct (get_db_cases w)
    as [(v & _ & ->)|[(_ & _ & ->)|[(p & e & _ & _ & _ & ->)|(p & _ & _ & _ & ->)]]];
    done.
Qed.

Lemma close_db_config (e : option exn) (w : World) :
  config (snd (close_db env e w)) = config w.
Proof.
  destruct (close_db_cases e w)
    as [(_ & ->)|[(_ & ->)|(r & _ & [(ex & _ & ->)|(_ & ->)])]]; done.
Qed.

Lemma get_db_heap_dom (w : World) : dom (heap w) ⊆ dom (heap (snd (get_db env w))).
Proof.
  destruct (get_db_cases w)
    as [(v & _ & ->)|[(_ & _ & ->)|[(p & e & _ & _ & _ & ->)|(p & _ & _ & _ & ->)]]];
    simpl; try done.
  rewrite dom_insert. set_solver.
Qed.

Lemma close_db_heap_dom (e : option exn) (w : World) :
  dom (heap (snd (close_db env e w))) = dom (heap w).
Proof.
  destruct (close_db_cases e w)
    as [(_ & ->)|[(_ & ->)|(r & _ & [(ex & _ & ->)|(_ & ->)])]]; simpl; try done.
  apply dom_alter_L.
Qed.

Lemma get_db_no_dangling (w : World) :
  no_dangling w → no_dangling (snd (get_db env w)).
Proof.
  intros Hw.
  destruct (get_db_cases w)
    as [(v & _ & ->)|[(_ & _ & ->)|[(p & e & _ & _ & _ & ->)|(p & _ & _ & _ & ->)]]];
    simpl; try done.
  intros r. simpl. rewrite lookup_insert_eq. intros [= <-].
  rewrite dom_insert. set_solver.
Qed.

Lemma close_db_no_dangling (e : option exn) (w : World) :
  no_dangling (snd (close_db env e w)).
Proof. intros r Hr. by rewrite close_db_slot in Hr. Qed.


(** C4. After [get_db] has returned [h], a [close_db] followed by a
    [get_db] that the driver serves returns a connection object that did
    not exist before the release, hence one distinct from [h], and that
    new object is the one now in the slot. *)
Theorem release_then_acquire_is_new
    (w0 w1 w2 : World) (h : pyobj) (e : option exn) (res : result unit)
    (path : string) :
  no_dangling w0 →
  get_db env w0 = (Ok h, w1) →
  close_db env e w1 = (res, w2) →
  config w0 !! "DATABASE" = Some path →
  connect_outcome env (calls w2) path PARSE_DECLTYPES = None →
  ∃ r' w3,
    get_db env w2 = (Ok (PyConn r'), w3)
    ∧ PyConn r' ≠ h
    ∧ (r' ∉ dom (heap w1))
    ∧ associated w3 r'.
Proof.
  intros Hnd Hget Hclose Hc Ho.
  assert (Hw1 : w1 = snd (get_db env w0)) by by rewrite Hget.
  assert (Hw2 : w2 = snd (close_db env e w1)) by by rewrite Hclose.
  assert (Hg2 : g w2 !! "db" = None) by (rewrite Hw2; apply close_db_slot).
  assert (Hc2 : config w2 !! "DATABASE" = Some path).
  { by rewrite Hw2, close_db_config, Hw1, get_db_config. }
  assert (Hdom : dom (heap w2) = dom (heap w1)).
  { rewrite Hw2. apply close_db_heap_dom. }
  assert (Hfresh : fresh (dom (heap w2)) ∉ dom (heap w1)).
  { rewrite <- Hdom. apply is_fresh. }
  eexists _, _. split; [apply (get_db_opens _ _ Hg2 Hc2 Ho)|].
  split_and!.
  - intros <-. apply Hfresh.
    pose proof (get_db_no_dangling _ Hnd) as Hnd1. rewrite <- Hw1 in Hnd1.
    apply Hnd1. by apply get_db_ok_slot in Hget.
  - done.
  - unfold associated. simpl. apply lookup_insert_eq.
Qed.

(** ** Claims about [init_db] and the command *)

Lemma init_db_unfold (w : World) :
  init_db env w =
    match get_db env w with
    | (Ok h, w1) =>
      with_open_resource env "schema.sql"
        (fun f => method ← conn_method h "executescript";
                  data ← file_read f; script ← decode_utf8 data;
                  executescript env method script) w1
    | (Raise e, w1) => (Raise e, w1)
    end.
Proof. reflexivity. Qed.

(** [init_db] differs from the [get_db] it starts with only by calls that
    read the resource and run the script. *)
Lemma init_db_frame (w : World) :
  ∃ t, g (snd (init_db env w)) = g (snd (get_db env w))
     ∧ heap (snd (init_db env w)) = heap (snd (get_db env w))
     ∧ config (snd (init_db env w)) = config (snd (get_db env w))
     ∧ calls (snd (init_db env w)) = (calls (snd (get_db env w)) ++ t)%list
     ∧ Forall schema_event t.
Proof.
  rewrite init_db_unfold. destruct (get_db env w) as [[h|e] w1]; simpl.
  2:{ exists []. by rewrite app_nil_r. }
  unfold with_open_resource, conn_method, file_read, decode_utf8, executescript.
  unfold_m.
  destruct (resource_outcome env (calls w1) "schema.sql") as [data|e]; simpl.
  2:{ eexists [_]. split_and!; try done. by repeat constructor. }
  destruct h as [|r]; simpl.
  { eexists [_; _]. rewrite <- app_assoc. split_and!; try done.
    by repeat constructor. }
  destruct (bytes_decode data) as [script|e]; simpl.
  2:{ eexists [_; _]. rewrite <- app_assoc. split_and!; try done.
      by repeat constructor. }
  destruct (executescript_outcome env _ r script); simpl;
    (eexists [_; _; _]; rewrite <- !app_assoc; split_and!; try done;
     by repeat constructor).
Qed.

(** C5. When [get_db] hands [init_db] the connection [r] (the cached one,
    or one it has just opened and cached), the resource [schema.sql] can
    be read and its bytes are valid UTF-8, [init_db] makes exactly three
    further calls: it opens the resource, runs the whole decoded text as
    one script on [r], and closes the resource.  It asks nothing about
    existing data beforehand and undoes nothing afterwards: if the script
    fails, the error is raised as it is. *)
Theorem init_db_runs_schema_script
    (w w1 : World) (r : Ref) (data : bytes) (script : pystr) :
  get_db env w = (Ok (PyConn r), w1) →
  resource_outcome env (calls w1) "schema.sql" = Ok data →
  bytes_decode data = Ok script →
  let out := executescript_outcome env
               (calls w1 ++ [EvOpenResource "schema.sql" (Ok data)]) r script in
  init_db env w =
    (match out with None => Ok tt | Some ex => Raise ex end,
     mkWorld (g w1) (heap w1) (config w1)
       (calls w1 ++ [EvOpenResource "schema.sql" (Ok data);
                     EvExecuteScript r script out;
                     EvCloseResource "schema.sql"]))
  ∧ associated w1 r
  ∧ ((associated w r ∧ w1 = w)
     ∨ (g w !! "db" = None
        ∧ ∃ path, config w !! "DATABASE" = Some path
                  ∧ calls w1 = (calls w ++ [EvConnect path PARSE_DECLTYPES (Ok r)])%list)).
Proof.
  intros Hget Hres Hdec out. split_and!.
  - rewrite init_db_unfold, Hget.
    unfold with_open_resource, conn_method, file_read, decode_utf8, executescript.
    unfold_m. rewrite Hres. simpl. rewrite Hdec. simpl. fold out.
    destruct out; unfold log; simpl; by rewrite <- !app_assoc.
  - by apply get_db_ok_slot in Hget.
  - destruct (get_db_cases w)
      as [(v & Hv & Heq)|[(_ & _ & Heq)|[(p & e & _ & _ & _ & Heq)|(p & Hg & Hc & _ & Heq)]]];
      rewrite Heq in Hget; simplify_eq.
    + by left.
    + right. split; [done|]. by exists p.
Qed.

Lemma omap_echo_app (l1 l2 : list Event) :
  omap (fun ev => match ev with EvEcho msg => Some msg | _ => None end) (l1 ++ l2)
  = (omap (fun ev => match ev with EvEcho msg => Some msg | _ => None end) l1
     ++ omap (fun ev => match ev with EvEcho msg => Some msg | _ => None end) l2)%list.
Proof. apply omap_app. Qed.

Lemma get_db_stdout (w : World) : stdout (snd (get_db env w)) = stdout w.
Proof.
  unfold stdout.
  destruct (get_db_cases w)
    as [(v & _ & ->)|[(_ & _ & ->)|[(p & e & _ & _ & _ & ->)|(p & _ & _ & _ & ->)]]];
    simpl; try done; rewrite omap_echo_app; simpl; by rewrite app_nil_r.
Qed.

Lemma close_db_stdout (e : option exn) (w : World) :
  stdout (snd (close_db env e w)) = stdout w.
Proof.
  unfold stdout.
  destruct (close_db_cases e w)
    as [(_ & ->)|[(_ & ->)|(r & _ & [(ex & _ & ->)|(_ & ->)])]];
    simpl; try done; rewrite omap_echo_app; simpl; by rewrite app_nil_r.
Qed.

Lemma schema_events_silent (t : list Event) :
  Forall schema_event t →
  omap (fun ev => match ev with EvEcho msg => Some msg | _ => None end) t = [].
Proof.
  induction 1 as [|ev t Hev _ IH]; [done|].
  destruct ev; try done; simpl; exact IH.
Qed.

Lemma init_db_stdout (w : World) : stdout (snd (init_db env w)) = stdout w.
Proof.
  destruct (init_db_frame w) as (t & _ & _ & _ & Hcalls & Ht).
  unfold stdout at 1. rewrite Hcalls, omap_echo_app, (schema_events_silent _ Ht).
  rewrite app_nil_r. apply get_db_stdout.
Qed.

Lemma init_app_teardown (app : App) (exc : option exn) (w : World) :
  do_teardown_appcontext (init_app env app) exc w
  = (close_db env exc;; run_teardown (reverse (teardown_appcontext_funcs app)) exc) w.
Proof.
  unfold do_teardown_appcontext, init_app, add_command, teardown_appcontext.
  simpl. by rewrite reverse_snoc.
Qed.

(** C6. [init_app] registers under the name [init-db] a command that
    declares no option and no argument and whose callback is
    [init_db_command].  The callback runs [init_db] and then echoes the
    confirmation; if [init_db] raises, the same error is raised, nothing
    is echoed and the exit status is not zero.  Run from the command line
    of an application that registered only this module, a failing
    [init_db] ends the command with status 1 and an unchanged standard
    output. *)
Theorem init_db_command_reports_only_success (app : App) (w : World) :
  cli_commands (init_app env app) !! "init-db"
    = Some (mkCommand "init-db" [] (init_db_command env))
  ∧ (∀ w', init_db env w = (Ok tt, w') →
       init_db_command env w = (Ok tt, log (EvEcho "Initialized the database.") w')
       ∧ stdout (snd (init_db_command env w))
         = (stdout w ++ ["Initialized the database."])%list
       ∧ exit_status (fst (init_db_command env w)) = 0)
  ∧ (∀ e w', init_db env w = (Raise e, w') →
       init_db_command env w = (Raise e, w')
       ∧ stdout w' = stdout w
       ∧ exit_status (fst (init_db_command env w)) ≠ 0)
  ∧ (∀ e w', init_db env (push_context w) = (Raise e, w') →
       ∃ w2, run_cli (init_app env new_app) "init-db" w = Some (1, w2)
             ∧ stdout w2 = stdout w).
Proof.
  split_and!.
  - unfold init_app, add_command. simpl. apply lookup_insert_eq.
  - intros w' H. unfold init_db_command, click_echo. unfold_m. rewrite H. simpl.
    split_and!; try done.
    unfold stdout. simpl. rewrite omap_echo_app. simpl. f_equal.
    change (stdout w' = stdout w). replace w' with (snd (init_db env w)) by by rewrite H.
    apply init_db_stdout.
  - intros e w' H. unfold init_db_command. unfold_m. rewrite H. simpl.
    split_and!; try done.
    replace w' with (snd (init_db env w)) by by rewrite H.
    apply init_db_stdout.
  - intros e w' H. unfold run_cli.
    replace (cli_commands (init_app env new_app) !! "init-db")
      with (Some (mkCommand "init-db" [] (init_db_command env)))
      by (symmetry; apply lookup_insert_eq).
    simpl. unfold init_db_command at 1. unfold_m. rewrite H.
    rewrite init_app_teardown. simpl. unfold_m.
    destruct (close_db env (Some e) w') as [[[]|ex] w2] eqn:Hcl; simpl;
      (eexists; split; [reflexivity|]);
      (replace w2 with (snd (close_db env (Some e) w')) by by rewrite Hcl);
      rewrite close_db_stdout;
      (replace w' with (snd (init_db env (push_context w))) by by rewrite H);
      by rewrite init_db_stdout.
Qed.

(** ** The slot as a state machine *)

Lemma ctx_inv_start (w0 : World) : ctx_inv (push_context w0) (push_context w0).
Proof.
  exists []. rewrite app_nil_r. by split_and!.
Qed.

(** Calls that change neither the slot nor the heap keep the invariant. *)
Lemma ctx_inv_frame (w0 w w' : World) (t : list Event) :
  ctx_inv w0 w → g w' = g w → heap w' = heap w → calls w' = calls w ++ t →
  ctx_inv w0 w'.
Proof.
  intros (t0 & Hc & Hd & Hs & Hu) Hg Hh Ht. exists (t0 ++ t).
  unfold associated. rewrite Hg, Hh, Ht, Hc, app_assoc. split_and!; try done.
  intros r Hin Hnot. destruct (Hu r Hin Hnot) as [Ha|[o Ho]]; [by left|].
  right. exists o. apply elem_of_app. by left.
Qed.

Lemma ctx_inv_get_db (w0 w : World) :
  ctx_inv w0 w → ctx_inv w0 (snd (get_db env w)).
Proof.
  intros Hinv.
  destruct (get_db_cases w)
    as [(v & _ & ->)|[(_ & _ & ->)|[(p & e & _ & _ & _ & ->)|(p & Hg & _ & _ & ->)]]];
    simpl; try done.
  { by apply (ctx_inv_frame _ w _ [EvConnect p PARSE_DECLTYPES (Raise e)]). }
  destruct Hinv as (t0 & Hc & Hd & Hs & Hu).
  exists (t0 ++ [EvConnect p PARSE_DECLTYPES (Ok (fresh (dom (heap w))))]).
  unfold associated. simpl. rewrite Hc, app_assoc, dom_insert_L.
  split_and!; try done.
  - set_solver.
  - intros v. rewrite lookup_insert_eq. intros [= <-]. eexists. split; [done|].
    set_solver.
  - intros r Hin Hnot. apply elem_of_union in Hin as [Hin|Hin].
    + apply elem_of_singleton in Hin as ->. left. apply lookup_insert_eq.
    + destruct (Hu r Hin Hnot) as [Ha|[o Ho]].
      * unfold associated in Ha. congruence.
      * right. exists o. apply elem_of_app. by left.
Qed.

Lemma ctx_inv_close_db (w0 w : World) (e : option exn) :
  ctx_inv w0 w → ctx_inv w0 (snd (close_db env e w)).
Proof.
  intros Hinv.
  destruct (close_db_cases e w) as [(_ & ->)|[(Hn & _)|(r & Hr & Hcl)]];
    simpl; try done.
  { destruct Hinv as (_ & _ & _ & Hs & _).
    destruct (Hs _ Hn) as (r & Hr & _). discriminate. }
  destruct Hinv as (t0 & Hc & Hd & Hs & Hu).
  assert (Hstep : ∀ o w',
    g w' = delete "db" (g w) → dom (heap w') = dom (heap w) →
    calls w' = calls w ++ [EvClose r o] → ctx_inv w0 w').
  { intros o w' Hg' Hh' Hc'. exists (t0 ++ [EvClose r o]).
    unfold associated. rewrite Hg', Hh', Hc', Hc, app_assoc.
    split_and!; try done.
    - intros v. by rewrite lookup_delete_eq.
    - intros r' Hin Hnot. right.
      destruct (Hu r' Hin Hnot) as [Ha|[o' Ho']].
      + unfold associated in Ha. rewrite Hr in Ha. simplify_eq.
        exists o. apply elem_of_app. right. by apply list_elem_of_singleton.
      + exists o'. apply elem_of_app. by left. }
  destruct Hcl as [(ex & _ & ->)|(_ & ->)]; simpl.
  - by apply (Hstep (Some ex)).
  - apply (Hstep None); try done. simpl. apply dom_alter_L.
Qed.

Lemma ctx_inv_init_db (w0 w : World) :
  ctx_inv w0 w → ctx_inv w0 (snd (init_db env w)).
Proof.
  intros Hinv. destruct (init_db_frame w) as (t & Hg & Hh & _ & Hc & _).
  apply (ctx_inv_frame _ (snd (get_db env w)) _ t); try done.
  by apply ctx_inv_get_db.
Qed.

Lemma ctx_inv_init_db_command (w0 w : World) :
  ctx_inv w0 w → ctx_inv w0 (snd (init_db_command env w)).
Proof.
  intros Hinv. apply (ctx_inv_init_db w0) in Hinv.
  unfold init_db_command, click_echo. unfold_m.
  destruct (init_db env w) as [[[]|e] w1]; simpl in *; [|done].
  by apply (ctx_inv_frame _ w1 _ [EvEcho "Initialized the database."]).
Qed.

Lemma ctx_inv_run_ops (w0 w : World) (os : list op) :
  ctx_inv w0 w → ctx_inv w0 (run_ops env os w).
Proof.
  revert w. induction os as [|o os IH]; intros w Hinv; [done|].
  simpl. apply IH. destruct o; simpl.
  - by apply ctx_inv_get_db.
  - by apply ctx_inv_close_db.
  - by apply ctx_inv_init_db.
  - by apply ctx_inv_init_db_command.
Qed.

(** Under the invariant, a connection opened in the context and not yet
    handed to [close] is the one in the slot. *)
Lemma unreleased_is_associated (w0 w : World) (r : Ref) :
  ctx_inv w0 w → unreleased w0 w r → associated w r.
Proof.
  intros (t & Hc & _ & _ & Hu) (Hin & Hnot & Hrel).
  rewrite Hc, drop_app_length in Hrel.
  destruct (Hu r Hin Hnot) as [Ha|[o Ho]]; [done|]. by destruct (Hrel o).
Qed.


End ManagerFacts.

(** ** UTF-8 round trip *)

Ltac bool_facts E :=
  rewrite ?andb_true_iff, ?andb_false_iff, ?negb_true_iff, ?negb_false_iff in E;
  rewrite ?andb_true_iff, ?andb_false_iff in E;
  rewrite ?Z.leb_le, ?Z.ltb_lt, ?Z.leb_gt, ?Z.ltb_ge in E.

(** Settle the test at the head of the goal by arithmetic. *)
Ltac head_test :=
  match goal with
  | |- (if ?b then _ else _) = _ =>
    let E := fresh "E" in
    destruct b eqn:E;
    try (exfalso; bool_facts E; Z.div_mod_to_equations; lia);
    clear E
  end.

Lemma decode_encode_char (c : Z) (rest : bytes) :
  scalar c →
  bytes_decode (encode_char c ++ rest) =
    match bytes_decode rest with
    | Ok s => Ok (c :: s)
    | Raise e => Raise e
    end.
Proof.
  intros Hc. unfold scalar in Hc. unfold encode_char.
  destruct (Z.ltb_spec c 128); [|destruct (Z.ltb_spec c 2048);
    [|destruct (Z.ltb_spec c 65536)]];
    cbn [app bytes_decode]; unfold is_cont; repeat head_test;
    (destruct (bytes_decode rest); [|done]);
    do 2 f_equal; Z.div_mod_to_equations; lia.
Qed.

Lemma decode_encode (s : pystr) :
  Forall scalar s → bytes_decode (str_encode s) = Ok s.
Proof.
  induction 1 as [|c s Hc _ IH]; [done|].
  unfold str_encode in *. cbn [map concat].
  by rewrite decode_encode_char, IH.
Qed.

Lemma scalarb_scalar (c : Z) : scalarb c = true → scalar c.
Proof. unfold scalarb, scalar. lia. Qed.

Lemma bind_text_decode (s : pystr) (b : bytes) :
  bind_text s = Ok b → bytes_decode b = Ok s.
Proof.
  unfold bind_text. destruct (forallb scalarb s) eqn:Hs; [|done].
  intros [= <-]. apply decode_encode.
  apply Forall_forall. intros c Hin. apply scalarb_scalar.
  rewrite forallb_forall in Hs. apply Hs. by apply list_elem_of_In.
Qed.

(** ** The timestamp converter *)

Section TimestampFacts.

Variable env : Environment.
Variable datetime : Type.
Variable fromisoformat : pystr → result datetime.
Variable render_number : pystr → bytes.

(** The converter undoes the encoding of the text it is handed. *)
Lemma timestamp_converter_encoded (s : pystr) (b : bytes) :
  bind_text s = Ok b →
  timestamp_converter datetime fromisoformat b
  = parse_directly datetime fromisoformat s.
Proof.
  intros Hb. unfold timestamp_converter, parse_directly.
  by rewrite (bind_text_decode _ _ Hb).
Qed.

Lemma str_encode_nonempty (s : pystr) : s ≠ [] → str_encode s ≠ [].
Proof.
  destruct s as [|c s]; [done|]. intros _. unfold str_encode, encode_char.
  cbn [map concat]. by repeat case_match.
Qed.

(** Text that does not read as a number is stored as it is, whatever the
    affinity of the column. *)
Lemma store_text_kept (aff : Affinity) (s : pystr) (b : bytes) :
  bind_text s = Ok b → numeric_literal s = NotNumeric →
  store_text aff s = Ok (CText b).
Proof.
  intros Hb Hn. unfold store_text. rewrite Hb, Hn. by destruct aff.
Qed.

(** A connection opened by [get_db] detects declared types. *)
Lemma get_db_opened_connection (w w' : World) (r : Ref) :
  g w !! "db" = None → get_db env w = (Ok (PyConn r), w') →
  ∃ path, heap w' !! r = Some (mkConnection path PARSE_DECLTYPES Row false).
Proof.
  intros Hg Hget.
  destruct (get_db_cases env w)
    as [(v & Hv & _)|[(_ & _ & Heq)|[(p & e & _ & _ & _ & Heq)|(p & _ & _ & _ & Heq)]]];
    [congruence|rewrite Heq in Hget; simplify_eq..].
  exists p. simpl. apply lookup_insert_eq.
Qed.


End TimestampFacts.

(** ** The module on concrete worlds *)

Example world1_is_first_acquire :
  get_db env_ok world0 = (Ok (PyConn 1), world1).
Proof. vm_compute. reflexivity. Qed.

Example init_db_command_trace :
  calls (snd (init_db_command env_ok world0))
  = [EvConnect "instance/flaskr.sqlite" 1 (Ok 1%positive);
     EvOpenResource "schema.sql" (Ok schema_sql);
     EvExecuteScript 1 schema_sql None;
     EvCloseResource "schema.sql";
     EvEcho "Initialized the database."].
Proof. vm_compute. reflexivity. Qed.

Example timestamp_affinity : column_affinity "timestamp" = AffNumeric.
Proof. reflexivity. Qed.

Example date_time_text_is_kept :
  store_text AffNumeric (pystr_of_string "2024-01-02 03:04:05")
  = Ok (CText (pystr_of_string "2024-01-02 03:04:05")).
Proof. vm_compute. reflexivity. Qed.

Example utf8_two_bytes : bytes_decode [195; 169] = Ok [233].
Proof. reflexivity. Qed.

Example utf8_overlong_rejected : bytes_decode [192; 128] = Raise UnicodeDecodeError.
Proof. reflexivity. Qed.

(** ** Counterexamples *)



(** ** The theorems at concrete inputs *)

(** Three calls after the first one, in a configured application. *)
Lemma acquire_returns_same_handle_witness :
  get_db env_ok world0 = (Ok (PyConn 1), world1)
  ∧ acquire_n env_ok 3 world1 = ([Ok (PyConn 1); Ok (PyConn 1); Ok (PyConn 1)], world1).
Proof.
  assert (H : get_db env_ok world0 = (Ok (PyConn 1), world1))
    by (vm_compute; reflexivity).
  split; [exact H|].
  exact (acquire_returns_same_handle env_ok world0 world1 (PyConn 1) 3 H).
Defined.

(** The first call in a configured application asks for the configured path. *)
Lemma first_acquire_opens_configured_witness :
  ∃ res, calls (snd (get_db env_ok world0))
         = calls world0 ++ [EvConnect "instance/flaskr.sqlite" PARSE_DECLTYPES res].
Proof.
  apply (first_acquire_opens_configured env_ok world0 "instance/flaskr.sqlite");
    reflexivity.
Defined.

(** The storage directory does not exist: the error of the driver comes
    out and [g] is as before. *)
Lemma failed_acquire_leaves_slot_empty_witness :
  ∃ w', get_db env_no_directory world0 = (Raise OperationalError, w')
        ∧ g w' = g world0.
Proof.
  destruct (failed_acquire_leaves_slot_empty env_no_directory world0
              "instance/flaskr.sqlite" OperationalError)
    as (w' & H1 & H2 & _); [reflexivity..|].
  exists w'. split; [exact H1|exact H2].
Defined.

(** The driver refuses the close: the error comes out of [close_db], and
    the slot is empty. *)
Lemma release_empties_slot_before_close_witness :
  associated world1 1
  ∧ fst (close_db env_other_thread None world1) = Raise ProgrammingError
  ∧ g (snd (close_db env_other_thread None world1)) !! "db" = None.
Proof.
  assert (Ha : associated world1 1) by reflexivity.
  destruct (release_empties_slot_before_close env_other_thread None world1 1 Ha)
    as (_ & _ & H3 & H4).
  split; [exact Ha|]. split; [apply H3; reflexivity|exact H4].
Defined.

(** Acquire, release, acquire again: the second handle is not the first. *)
Lemma release_then_acquire_is_new_witness :
  ∃ r' w3,
    get_db env_ok (snd (close_db env_ok None world1)) = (Ok (PyConn r'), w3)
    ∧ PyConn r' ≠ PyConn 1
    ∧ (r' ∉ dom (heap world1))
    ∧ associated w3 r'.
Proof.
  apply (release_then_acquire_is_new env_ok world0 world1
           (snd (close_db env_ok None world1)) (PyConn 1) None
           (fst (close_db env_ok None world1)) "instance/flaskr.sqlite").
  - intros r Hr. vm_compute in Hr. discriminate Hr.
  - vm_compute. reflexivity.
  - vm_compute. reflexivity.
  - reflexivity.
  - reflexivity.
Defined.

(** [init_db] in a configured application whose schema is in ASCII. *)
Lemma init_db_runs_schema_script_witness :
  init_db env_ok world0
  = (Ok tt,
     mkWorld (g world1) (heap world1) (config world1)
       (calls world1 ++ [EvOpenResource "schema.sql" (Ok schema_sql);
                         EvExecuteScript 1 schema_sql None;
                         EvCloseResource "schema.sql"]))
  ∧ associated world1 1.
Proof.
  destruct (init_db_runs_schema_script env_ok world0 world1 1 schema_sql schema_sql)
    as (H1 & H2 & _); [vm_compute; reflexivity..|].
  split; [exact H1|exact H2].
Defined.

(** The storage directory does not exist: the command ends with status 1
    and has written nothing. *)
Lemma init_db_command_reports_only_success_witness :
  ∃ w2, run_cli (init_app env_no_directory new_app) "init-db" world0 = Some (1, w2)
        ∧ stdout w2 = [].
Proof.
  destruct (init_db_command_reports_only_success env_no_directory new_app world0)
    as (_ & _ & _ & H).
  destruct (H OperationalError
              (log (EvConnect "instance/flaskr.sqlite" PARSE_DECLTYPES
                      (Raise OperationalError)) world0))
    as (w2 & H1 & H2); [vm_compute; reflexivity|].
  exists w2. split; [exact H1|exact H2].
Defined.


(** * Further properties of the module *)

Section MoreManagerFacts.

Variable env : Environment.

(** ** Errors and edges of [get_db] and [close_db] *)

(** X1. Without a [DATABASE] entry in the configuration, [get_db], [init_db]
    and [init_db_command] each raise [KeyError] for that key and leave the
    world as it was: the driver is not called, no resource is opened and
    nothing is printed. *)
Theorem missing_database_key (w : World) :
  g w !! "db" = None →
  config w !! "DATABASE" = None →
  get_db env w = (Raise (KeyError "DATABASE"), w)
  ∧ init_db env w = (Raise (KeyError "DATABASE"), w)
  ∧ init_db_command env w = (Raise (KeyError "DATABASE"), w).
Proof.
  intros Hg Hc. pose proof (get_db_no_config env _ Hg Hc) as Hget.
  assert (Hinit : init_db env w = (Raise (KeyError "DATABASE"), w)).
  { by rewrite init_db_unfold, Hget. }
  split_and!; try done.
  unfold init_db_command. unfold_m. by rewrite Hinit.
Qed.

(** X2. [get_db] looks only at whether the slot is filled, not at the
    state of the connection in it: a handle that was closed directly,
    not through [close_db], stays in the slot and is what the next
    [get_db] returns, closed, without a new connection being opened. *)
Theorem closed_handle_stays_cached (w w' : World) (r : Ref) (c : Connection) :
  associated w r →
  heap w !! r = Some c →
  conn_close env (PyConn r) w = (Ok tt, w') →
  get_db env w' = (Ok (PyConn r), w')
  ∧ heap w' !! r = Some (mark_closed c)
  ∧ conn_closed (mark_closed c) = true.
Proof.
  intros Ha Hh Hcl. unfold conn_close in Hcl.
  destruct (close_outcome env (calls w) r); simplify_eq.
  split_and!; try done.
  - apply get_db_cached. exact Ha.
  - simpl. by rewrite lookup_alter_eq, Hh.
Qed.

Lemma get_db_g_other (k : string) (w : World) :
  k ≠ "db" → g (snd (get_db env w)) !! k = g w !! k.
Proof.
  intros Hk.
  destruct (get_db_cases env w)
    as [(v & _ & ->)|[(_ & _ & ->)|[(p & e & _ & _ & _ & ->)|(p & _ & _ & _ & ->)]]];
    simpl; try done.
  by rewrite lookup_insert_ne.
Qed.

Lemma close_db_g (e : option exn) (w : World) :
  g (snd (close_db env e w)) = delete "db" (g w).
Proof.
  destruct (close_db_cases env e w)
    as [(Hn & ->)|[(_ & ->)|(r & _ & [(ex & _ & ->)|(_ & ->)])]]; simpl; try done.
  by rewrite delete_id.
Qed.

(** X3. The module keeps to its own attribute of [g]: [get_db], [close_db]
    and [init_db] leave every attribute other than [db] as it was, and none
    of them changes the configuration. *)
Theorem other_attributes_untouched (k : string) (e : option exn) (w : World) :
  k ≠ "db" →
  g (snd (get_db env w)) !! k = g w !! k
  ∧ g (snd (close_db env e w)) !! k = g w !! k
  ∧ g (snd (init_db env w)) !! k = g w !! k
  ∧ config (snd (get_db env w)) = config w
  ∧ config (snd (close_db env e w)) = config w
  ∧ config (snd (init_db env w)) = config w.
Proof.
  intros Hk. destruct (init_db_frame env w) as (t & Hg & _ & Hc & _).
  split_and!.
  - by apply get_db_g_other.
  - rewrite close_db_g. by rewrite lookup_delete_ne.
  - rewrite Hg. by apply get_db_g_other.
  - apply get_db_config.
  - apply close_db_config.
  - rewrite Hc. apply get_db_config.
Qed.

(** X4. [close_db] calls the driver at most once, and only for the
    connection of the slot: with a connection [r] in the slot the one call
    is the close of [r], which marks [r] closed when it succeeds, and every
    other connection object is left as it was; with an empty slot, or with
    [None] in it, the driver is not called and no object changes. *)
Theorem release_closes_only_slot_handle (e : option exn) (w : World) :
  match g w !! "db" with
  | Some (PyConn r) =>
    calls (snd (close_db env e w))
      = calls w ++ [EvClose r (close_outcome env (calls w) r)]
    ∧ heap (snd (close_db env e w)) !! r
      = match close_outcome env (calls w) r with
        | None => mark_closed <$> heap w !! r
        | Some _ => heap w !! r
        end
    ∧ (∀ r', r' ≠ r → heap (snd (close_db env e w)) !! r' = heap w !! r')
  | _ =>
    fst (close_db env e w) = Ok tt
    ∧ calls (snd (close_db env e w)) = calls w
    ∧ heap (snd (close_db env e w)) = heap w
  end.
Proof.
  destruct (g w !! "db") as [[|r]|] eqn:Hg.
  - by rewrite (close_db_none env _ _ Hg).
  - rewrite (close_db_conn env _ _ _ Hg). unfold conn_close. simpl.
    destruct (close_outcome env (calls w) r) as [ex|]; simpl.
    + done.
    + split_and!; try done.
      * apply lookup_alter_eq.
      * intros r' Hr'. by apply lookup_alter_ne.
  - by rewrite (close_db_empty env _ _ Hg).
Qed.

(** X5. Acquire then release, with a driver that serves both calls, gives
    back the [g] the context started with; the one connection that was
    opened is left closed in the heap, and the trace has grown by exactly
    the open and the close of that connection. *)
Theorem acquire_release_round_trip (e : option exn) (w : World) (path : string) :
  g w !! "db" = None →
  config w !! "DATABASE" = Some path →
  connect_outcome env (calls w) path PARSE_DECLTYPES = None →
  close_outcome env
    (calls w ++ [EvConnect path PARSE_DECLTYPES (Ok (fresh (dom (heap w))))])
    (fresh (dom (heap w))) = None →
  close_db env e (snd (get_db env w))
  = (Ok tt,
     mkWorld (g w)
       (<[fresh (dom (heap w)) := mkConnection path PARSE_DECLTYPES Row true]> (heap w))
       (config w)
       (calls w ++ [EvConnect path PARSE_DECLTYPES (Ok (fresh (dom (heap w))));
                    EvClose (fresh (dom (heap w))) None])).
Proof.
  intros Hg Hc Ho Hcl. rewrite (get_db_opens env _ _ Hg Hc Ho). simpl.
  erewrite close_db_conn by (simpl; apply lookup_insert_eq).
  unfold conn_close. simpl. rewrite Hcl. unfold log, set_heap, set_g. simpl.
  rewrite (delete_insert_id _ _ _ Hg), alter_insert_eq, <- app_assoc. done.
Qed.

(** ** Errors and edges of [init_db] *)

(** The only error of the decoder. *)
Lemma bytes_decode_raises (n : nat) (bs : bytes) (e : exn) :
  (length bs ≤ n)%nat → bytes_decode bs = Raise e → e = UnicodeDecodeError.
Proof.
  revert bs e. induction n as [|n IH]; intros bs e Hlen H.
  { destruct bs; [done|simpl in Hlen; lia]. }
  destruct bs as [|b0 r0]; [done|]. simpl in Hlen.
  cbn [bytes_decode] in H.
  repeat case_match; simplify_eq; try done;
    (eapply IH; [|eassumption]; simpl in *; lia).
Qed.

(** The world [init_db] leaves: the one [get_db] left, with further calls
    that only read the resource and run the script. *)
Lemma init_db_world (w : World) :
  ∃ t, Forall schema_event t
     ∧ snd (init_db env w)
       = mkWorld (g (snd (get_db env w))) (heap (snd (get_db env w)))
           (config (snd (get_db env w))) (calls (snd (get_db env w)) ++ t).
Proof.
  destruct (init_db_frame env w) as (t & Hg & Hh & Hc & Hcalls & Ht).
  exists t. split; [done|].
  destruct (snd (init_db env w)). simpl in *. by subst.
Qed.

(** X6. Once [init_db] has opened the schema resource it closes it again,
    however the block ends: after the open, the trace holds at most one
    further call, a run of a script, and then the close of the resource,
    also when decoding or running the script raised. *)
Theorem init_db_always_closes_resource (w w1 : World) (h : pyobj) (data : bytes) :
  get_db env w = (Ok h, w1) →
  resource_outcome env (calls w1) "schema.sql" = Ok data →
  ∃ t, calls (snd (init_db env w))
       = calls w1 ++ EvOpenResource "schema.sql" (Ok data) :: t
                  ++ [EvCloseResource "schema.sql"]
     ∧ (length t ≤ 1)%nat
     ∧ ∀ ev, ev ∈ t → ∃ r script o, ev = EvExecuteScript r script o.
Proof.
  intros Hget Hres. rewrite init_db_unfold, Hget.
  unfold with_open_resource, conn_method, file_read, decode_utf8, executescript.
  unfold_m. rewrite Hres. simpl.
  destruct h as [|r]; simpl.
  { exists []. rewrite <- app_assoc. split_and!; [done|simpl; lia|].
    intros ev Hev. by apply elem_of_nil in Hev. }
  destruct (bytes_decode data) as [script|e]; simpl.
  2:{ exists []. rewrite <- app_assoc. split_and!; [done|simpl; lia|].
      intros ev Hev. by apply elem_of_nil in Hev. }
  destruct (executescript_outcome env _ r script) as [ex|] eqn:Hex; simpl;
    (eexists [_]; rewrite <- !app_assoc; split_and!; [done|simpl; lia|];
     intros ev Hev; apply list_elem_of_singleton in Hev as ->; eauto).
Qed.

(** X7. When the schema resource cannot be opened, or its bytes are not
    UTF-8, [init_db] raises that error (for bad bytes a
    [UnicodeDecodeError]) and runs no script; the connection it had
    acquired stays in the slot. *)
Theorem init_db_unreadable_schema (w w1 : World) (r : Ref) (e : exn) :
  get_db env w = (Ok (PyConn r), w1) →
  (resource_outcome env (calls w1) "schema.sql" = Raise e
   ∨ ∃ data, resource_outcome env (calls w1) "schema.sql" = Ok data
             ∧ bytes_decode data = Raise e) →
  fst (init_db env w) = Raise e
  ∧ (∀ data, resource_outcome env (calls w1) "schema.sql" = Ok data →
       e = UnicodeDecodeError)
  ∧ (∀ r' script o,
       EvExecuteScript r' script o
       ∉ drop (length (calls w1)) (calls (snd (init_db env w))))
  ∧ associated (snd (init_db env w)) r.
Proof.
  intros Hget Hbad.
  assert (Ha : associated (snd (init_db env w)) r).
  { destruct (init_db_frame env w) as (t & Hg & _). unfold associated.
    rewrite Hg, Hget. simpl. by apply get_db_ok_slot in Hget. }
  rewrite init_db_unfold, Hget in *.
  unfold with_open_resource, conn_method, file_read, decode_utf8, executescript
    in *.
  unfold_m. destruct Hbad as [Hres|(data & Hres & Hdec)]; rewrite Hres in *; simpl in *.
  - split_and!; try done.
    intros r' script o. rewrite drop_app_length.
    intros Hin. apply list_elem_of_singleton in Hin. discriminate.
  - rewrite Hdec in *. simpl in *. split_and!; try done.
    + intros data' [= <-]. by apply (bytes_decode_raises (length data) data).
    + intros r' script o. rewrite <- app_assoc, drop_app_length.
      intros Hin. apply elem_of_cons in Hin as [Hin|Hin]; [discriminate|].
      apply list_elem_of_singleton in Hin. discriminate.
Qed.

(** X8. [init_db] never releases the connection it works on: whether it
    returns or raises, the slot and the heap are as [get_db] left them, so
    a [get_db] that follows returns the same handle without calling the
    driver, and a second [init_db] in the same context opens no second
    connection. *)
Theorem init_db_keeps_connection (w w1 : World) (h : pyobj) :
  get_db env w = (Ok h, w1) →
  g (snd (init_db env w)) = g w1
  ∧ heap (snd (init_db env w)) = heap w1
  ∧ get_db env (snd (init_db env w)) = (Ok h, snd (init_db env w))
  ∧ ∃ t, Forall schema_event t
       ∧ calls (snd (init_db env (snd (init_db env w))))
         = calls (snd (init_db env w)) ++ t.
Proof.
  intros Hget.
  destruct (init_db_frame env w) as (t & Hg & Hh & _ & _ & _).
  rewrite Hget in Hg, Hh. simpl in Hg, Hh.
  assert (Hslot : g (snd (init_db env w)) !! "db" = Some h).
  { rewrite Hg. by apply get_db_ok_slot in Hget. }
  pose proof (get_db_cached env _ _ Hslot) as Hagain.
  split_and!; try done.
  destruct (init_db_frame env (snd (init_db env w))) as (t' & _ & _ & _ & Hc & Ht).
  rewrite Hagain in Hc. simpl in Hc. by exists t'.
Qed.

(** X9. The script that [init_db] runs is exactly the text whose UTF-8
    encoding the resource holds, for any text of Unicode scalar values:
    decoding undoes the encoding, whatever the characters. *)
Theorem init_db_executes_encoded_text (w w1 : World) (r : Ref) (script : pystr) :
  get_db env w = (Ok (PyConn r), w1) →
  Forall scalar script →
  resource_outcome env (calls w1) "schema.sql" = Ok (str_encode script) →
  ∃ o, calls (snd (init_db env w))
       = calls w1 ++ [EvOpenResource "schema.sql" (Ok (str_encode script));
                      EvExecuteScript r script o;
                      EvCloseResource "schema.sql"]
     ∧ fst (init_db env w) = match o with None => Ok tt | Some ex => Raise ex end.
Proof.
  intros Hget Hs Hres. rewrite init_db_unfold, Hget.
  unfold with_open_resource, conn_method, file_read, decode_utf8, executescript.
  unfold_m. rewrite Hres. simpl. rewrite (decode_encode _ Hs). simpl.
  destruct (executescript_outcome env _ r script) as [ex|] eqn:Hex; simpl;
    eexists; rewrite <- !app_assoc; split; reflexivity.
Qed.

(** ** Registration, teardown and the command line *)

(** A second [close_db] in a row does nothing. *)
Lemma close_db_twice {A} (exc : option exn) (k : M A) (w : World) :
  (close_db env exc;; close_db env exc;; k) w = (close_db env exc;; k) w.
Proof.
  unfold_m. pose proof (close_db_slot env exc w) as Hs.
  destruct (close_db env exc w) as [[[]|ex] w1]; simpl in *; [|done].
  by rewrite (close_db_empty env _ _ Hs).
Qed.

(** X10. [init_app] appends [close_db] to the teardown functions already
    registered and leaves the commands of other names alone.  Setting the
    same application up twice is harmless: the commands are the same as
    after one call, and the end of a context behaves as after one call,
    the second [close_db] finding nothing to do. *)
Theorem init_app_twice_is_harmless (app : App) (exc : option exn) (w : World) :
  teardown_appcontext_funcs (init_app env app)
    = teardown_appcontext_funcs app ++ [close_db env]
  ∧ (∀ name, name ≠ "init-db" →
       cli_commands (init_app env app) !! name = cli_commands app !! name)
  ∧ cli_commands (init_app env (init_app env app)) = cli_commands (init_app env app)
  ∧ do_teardown_appcontext (init_app env (init_app env app)) exc w
    = do_teardown_appcontext (init_app env app) exc w.
Proof.
  split_and!.
  - done.
  - intros name Hn. unfold init_app, add_command. simpl.
    by rewrite lookup_insert_ne.
  - unfold init_app, add_command. simpl. apply insert_insert_eq.
  - rewrite (init_app_teardown env (init_app env app)).
    replace (reverse (teardown_appcontext_funcs (init_app env app)))
      with (close_db env :: reverse (teardown_appcontext_funcs app))
      by (symmetry; apply reverse_snoc).
    rewrite (init_app_teardown env app). cbn [run_teardown].
    apply close_db_twice.
Qed.

Lemma run_teardown_keeps_empty
    (fs : list (option exn → M unit)) (exc : option exn) (w : World) :
  (∀ f e w', f ∈ fs → g w' !! "db" = None → g (snd (f e w')) !! "db" = None) →
  g w !! "db" = None →
  g (snd (run_teardown fs exc w)) !! "db" = None.
Proof.
  revert w. induction fs as [|f fs IH]; intros w Hfs Hw; [done|].
  cbn [run_teardown]. unfold_m.
  assert (Hf : g (snd (f exc w)) !! "db" = None).
  { apply Hfs; [apply elem_of_cons; by left|done]. }
  destruct (f exc w) as [[[]|ex] w1]; simpl in *; [|done].
  apply IH; [|done]. intros f' e' w' Hin. apply Hfs. apply elem_of_cons. by right.
Qed.


(** X12. From the command line, when every outside call succeeds and the
    schema resource is valid UTF-8, [init-db] ends with status 0 after
    exactly six calls, in this order: open the configured storage, open
    the resource, run the decoded script on the new connection, close the
    resource, print the confirmation, and close the connection at the
    teardown of the context; the context ends with an empty [g] and the
    connection closed. *)
Theorem run_cli_init_db_succeeds
    (w : World) (path : string) (data : bytes) (script : pystr) :
  obliging env data →
  config w !! "DATABASE" = Some path →
  bytes_decode data = Ok script →
  run_cli (init_app env new_app) "init-db" w
  = Some (0,
      mkWorld ∅
        (<[fresh (dom (heap w)) := mkConnection path PARSE_DECLTYPES Row true]> (heap w))
        (config w)
        (calls w ++ [EvConnect path PARSE_DECLTYPES (Ok (fresh (dom (heap w))));
                     EvOpenResource "schema.sql" (Ok data);
                     EvExecuteScript (fresh (dom (heap w))) script None;
                     EvCloseResource "schema.sql";
                     EvEcho "Initialized the database.";
                     EvClose (fresh (dom (heap w))) None])).
Proof.
  intros (Hconn & Hclose & Hexec & Hres) Hc Hdec.
  unfold run_cli.
  replace (cli_commands (init_app env new_app) !! "init-db")
    with (Some (mkCommand "init-db" [] (init_db_command env)))
    by (symmetry; apply lookup_insert_eq).
  cbn [cmd_callback]. unfold init_db_command at 1. unfold_m.
  rewrite init_db_unfold.
  rewrite (get_db_opens env (push_context w) path); [|done|done|apply Hconn].
  unfold with_open_resource, conn_method, file_read, decode_utf8, executescript,
    click_echo.
  unfold_m. rewrite Hres. simpl. rewrite Hdec. simpl. rewrite Hexec. simpl.
  rewrite init_app_teardown. unfold_m.
  erewrite close_db_conn by (simpl; apply lookup_insert_eq).
  unfold conn_close. simpl. rewrite Hclose. simpl.
  unfold log, set_heap, set_g. simpl.
  rewrite delete_insert_id by done.
  rewrite alter_insert_eq. simpl. by rewrite <- !app_assoc.
Qed.

(** ** Invariants of every run within a context *)

Lemma init_db_command_world (w : World) :
  ∃ t, Forall module_event t
     ∧ snd (init_db_command env w)
       = mkWorld (g (snd (get_db env w))) (heap (snd (get_db env w)))
           (config (snd (get_db env w))) (calls (snd (get_db env w)) ++ t).
Proof.
  destruct (init_db_world w) as (t & Ht & Heq).
  assert (Hm : Forall module_event t).
  { eapply Forall_impl; [exact Ht|]. intros ev Hev. by left. }
  unfold init_db_command, click_echo. unfold_m.
  destruct (init_db env w) as [[[]|e] w2]; simpl in *; subst w2.
  - exists (t ++ [EvEcho "Initialized the database."]). split.
    + apply Forall_app. split; [done|]. apply Forall_singleton. by right.
    + unfold log. simpl. by rewrite app_assoc.
  - by exists t.
Qed.

(** A property kept by [get_db], by [close_db] and by the calls of
    [init_db] and of the command is kept by every run. *)
Lemma run_ops_invariant (P : World → Prop) :
  (∀ w, P w → P (snd (get_db env w))) →
  (∀ e w, P w → P (snd (close_db env e w))) →
  (∀ w t, P w → Forall module_event t →
     P (mkWorld (g w) (heap w) (config w) (calls w ++ t))) →
  ∀ os w, P w → P (run_ops env os w).
Proof.
  intros Hget Hclose Hframe os.
  induction os as [|o os IH]; intros w Hw; [done|].
  simpl. apply IH. destruct o; simpl.
  - by apply Hget.
  - by apply Hclose.
  - destruct (init_db_world w) as (t & Ht & ->). apply Hframe; [by apply Hget|].
    eapply Forall_impl; [exact Ht|]. intros ev Hev. by left.
  - destruct (init_db_command_world w) as (t & Ht & ->).
    apply Hframe; [by apply Hget|done].
Qed.

(** X13. Whatever a handler has done in its context with [get_db],
    [close_db], [init_db] and the command, a [get_db] that returns hands
    out an open connection on the configured path, with declared-type
    detection on and rows addressable by name, and that connection is the
    one in the slot: the module never hands out [None], a connection it
    has closed, or one on another path. *)
Theorem acquired_handle_is_open_and_configured
    (w0 w' : World) (path : string) (os : list op) (h : pyobj) :
  config w0 !! "DATABASE" = Some path →
  get_db env (run_ops env os (push_context w0)) = (Ok h, w') →
  ∃ r, h = PyConn r
     ∧ heap w' !! r = Some (mkConnection path PARSE_DECLTYPES Row false)
     ∧ associated w' r.
Proof.
  intros Hc Hget.
  assert (Hinv : managed path (run_ops env os (push_context w0))
                 ∧ config (run_ops env os (push_context w0)) !! "DATABASE" = Some path).
  { apply (run_ops_invariant
             (fun w => managed path w ∧ config w !! "DATABASE" = Some path)).
    - intros w [Hm Hcw]. split; [|by rewrite get_db_config].
      destruct (get_db_cases env w)
        as [(v & _ & ->)|[(_ & _ & ->)|[(p & e & _ & _ & _ & ->)|(p & _ & Hp & _ & ->)]]];
        simpl; try done.
      intros v. simpl. rewrite lookup_insert_eq. intros [= <-].
      eexists. split; [done|]. rewrite lookup_insert_eq. congruence.
    - intros e w [Hm Hcw]. split; [|by rewrite close_db_config].
      intros v Hv. by rewrite close_db_slot in Hv.
    - by intros w t [Hm Hcw] _.
    - split; [|done]. intros v Hv. simpl in Hv. by rewrite lookup_empty in Hv. }
  destruct Hinv as [Hm Hcw].
  destruct (get_db_cases env (run_ops env os (push_context w0)))
    as [(v & Hv & Heq)|[(_ & _ & Heq)|[(p & e & _ & _ & _ & Heq)|(p & _ & Hp & _ & Heq)]]];
    rewrite Heq in Hget; simplify_eq.
  - destruct (Hm _ Hv) as (r & -> & Hr). by exists r.
  - eexists. split; [done|]. simpl. unfold associated. simpl.
    rewrite !lookup_insert_eq. split; [congruence|done].
Qed.

Lemma init_db_command_stdout (w : World) :
  stdout (snd (init_db_command env w))
  = stdout w ++ match fst (init_db_command env w) with
                | Ok _ => ["Initialized the database."]
                | Raise _ => []
                end.
Proof.
  pose proof (init_db_stdout env w) as Hs.
  unfold init_db_command, click_echo. unfold_m.
  destruct (init_db env w) as [[[]|e] w1]; simpl in *.
  - unfold stdout in *. simpl. by rewrite omap_echo_app, Hs.
  - by rewrite app_nil_r.
Qed.

(** X14. The only thing the module ever prints is the confirmation of the
    command, once for each invocation of the command that returned: after
    any run, standard output has grown by that line repeated at most as
    many times as the command was invoked. *)
Theorem only_the_command_prints (os : list op) (w : World) :
  ∃ k, (k ≤ count_init_commands os)%nat
     ∧ stdout (run_ops env os w)
       = stdout w ++ replicate k "Initialized the database.".
Proof.
  revert w. induction os as [|o os IH]; intros w.
  { exists O. split; [done|]. simpl. by rewrite app_nil_r. }
  destruct (IH (run_op env o w)) as (k & Hk & Hout).
  change (run_ops env (o :: os) w) with (run_ops env os (run_op env o w)).
  rewrite Hout. destruct o; simpl.
  - exists k. by rewrite get_db_stdout.
  - exists k. by rewrite close_db_stdout.
  - exists k. by rewrite init_db_stdout.
  - rewrite init_db_command_stdout.
    destruct (fst (init_db_command env w)).
    + exists (S k). split; [lia|]. by rewrite <- app_assoc.
    + exists k. split; [lia|]. by rewrite app_nil_r.
Qed.

(** X15. The storage the module opens is always the configured one: in
    any run, every call of the driver's [connect] is made with the
    configured path and with declared-type detection. *)
Theorem every_connect_uses_configured_path
    (w : World) (path : string) (os : list op) :
  config w !! "DATABASE" = Some path →
  ∃ t, calls (run_ops env os w) = calls w ++ t
     ∧ Forall (configured_connect path) t.
Proof.
  intros Hc.
  cut (config (run_ops env os w) !! "DATABASE" = Some path
       ∧ ∃ t, calls (run_ops env os w) = calls w ++ t
            ∧ Forall (configured_connect path) t); [by intros [_ H]|].
  apply (run_ops_invariant
           (fun w' => config w' !! "DATABASE" = Some path
                      ∧ ∃ t, calls w' = calls w ++ t
                           ∧ Forall (configured_connect path) t)).
  - intros w1 (Hc1 & t & Ht & Hf). split; [by rewrite get_db_config|].
    destruct (get_db_cases env w1)
      as [(v & _ & ->)|[(_ & _ & ->)|[(p & e & _ & Hp & _ & ->)|(p & _ & Hp & _ & ->)]]];
      simpl; try (by exists t);
      (eexists (t ++ [_]); rewrite Ht, app_assoc; split; [done|];
       apply Forall_app; split; [done|]; apply Forall_singleton; simpl;
       split; [congruence|done]).
  - intros e w1 (Hc1 & t & Ht & Hf). split; [by rewrite close_db_config|].
    destruct (close_db_cases env e w1)
      as [(_ & ->)|[(_ & ->)|(r & _ & [(ex & _ & ->)|(_ & ->)])]];
      simpl; try (by exists t);
      (eexists (t ++ [_]); rewrite Ht, app_assoc; split; [done|];
       apply Forall_app; split; [done|]; by apply Forall_singleton).
  - intros w1 t' (Hc1 & t & Ht & Hf) Hm. split; [done|]. simpl.
    exists (t ++ t'). rewrite Ht, app_assoc. split; [done|].
    apply Forall_app. split; [done|].
    eapply Forall_impl; [exact Hm|].
    intros ev [Hev| ->]; [by destruct ev|done].
  - split; [done|]. exists []. by rewrite app_nil_r.
Qed.

(** X16. [get_db] does not remember a failure: with the slot empty and a
    driver that refuses to open the storage, each of [n] calls in a row
    asks the driver again and raises its error, and nothing but the trace
    of those [n] attempts changes. *)
Theorem failing_driver_is_asked_every_time
    (w : World) (path : string) (e : exn) (n : nat) :
  g w !! "db" = None →
  config w !! "DATABASE" = Some path →
  (∀ t, connect_outcome env t path PARSE_DECLTYPES = Some e) →
  acquire_n env n w
  = (replicate n (Raise e),
     mkWorld (g w) (heap w) (config w)
       (calls w ++ replicate n (EvConnect path PARSE_DECLTYPES (Raise e)))).
Proof.
  intros Hg Hc Ho. revert w Hg Hc.
  induction n as [|n IH]; intros w Hg Hc.
  { simpl. rewrite app_nil_r. by destruct w. }
  cbn [acquire_n]. rewrite (get_db_open_fails env _ _ _ Hg Hc (Ho _)).
  rewrite IH by done. simpl. by rewrite <- app_assoc.
Qed.

End MoreManagerFacts.

(** ** Loading the module and the other converters *)

Section MoreTimestampFacts.

Variable datetime : Type.
Variable fromisoformat : pystr → result datetime.
Variable render_number : pystr → bytes.


End MoreTimestampFacts.

(** ** The further properties at concrete inputs *)

Lemma forallb_scalar (s : pystr) : forallb scalarb s = true → Forall scalar s.
Proof.
  intros Hs. apply Forall_forall. intros c Hin. apply scalarb_scalar.
  rewrite forallb_forall in Hs. apply Hs. by apply list_elem_of_In.
Qed.

(** No storage path is configured. *)
Lemma missing_database_key_witness :
  init_db_command env_ok world_unconfigured
  = (Raise (KeyError "DATABASE"), world_unconfigured).
Proof.
  apply (missing_database_key env_ok world_unconfigured); reflexivity.
Defined.

(** The handler closes the handle itself and asks for it again. *)
Lemma closed_handle_stays_cached_witness :
  get_db env_ok (snd (conn_close env_ok (PyConn 1) world1))
  = (Ok (PyConn 1), snd (conn_close env_ok (PyConn 1) world1))
  ∧ heap (snd (conn_close env_ok (PyConn 1) world1)) !! 1%positive
    = Some (mark_closed conn0).
Proof.
  destruct (closed_handle_stays_cached env_ok world1
              (snd (conn_close env_ok (PyConn 1) world1)) 1 conn0)
    as (H1 & H2 & _); [reflexivity..|].
  split; [exact H1|exact H2].
Defined.

(** The application's own attribute [user] survives an acquire. *)
Lemma other_attributes_untouched_witness :
  g (snd (get_db env_ok world_with_user)) !! "user" = Some PyNone.
Proof.
  destruct (other_attributes_untouched env_ok "user" None world_with_user)
    as (H & _); [discriminate|].
  exact H.
Defined.

(** Acquire and release in a configured application. *)
Lemma acquire_release_round_trip_witness :
  g (snd (close_db env_ok None (snd (get_db env_ok world0)))) = g world0.
Proof.
  rewrite (acquire_release_round_trip env_ok None world0 "instance/flaskr.sqlite");
    reflexivity.
Defined.

(** The schema is not UTF-8: the resource is closed all the same. *)
Lemma init_db_always_closes_resource_witness :
  ∃ t, calls (snd (init_db env_bad_schema world0))
       = calls world1 ++ EvOpenResource "schema.sql" (Ok [67; 255; 254]) :: t
                      ++ [EvCloseResource "schema.sql"]
     ∧ (length t ≤ 1)%nat.
Proof.
  destruct (init_db_always_closes_resource env_bad_schema world0 world1
              (PyConn 1) [67; 255; 254])
    as (t & H1 & H2 & _); [vm_compute; reflexivity..|].
  exists t. split; [exact H1|exact H2].
Defined.

(** The schema resource is missing. *)
Lemma init_db_unreadable_schema_witness :
  fst (init_db env_no_schema world0) = Raise FileNotFoundError
  ∧ associated (snd (init_db env_no_schema world0)) 1.
Proof.
  destruct (init_db_unreadable_schema env_no_schema world0 world1 1
              FileNotFoundError)
    as (H1 & _ & _ & H2); [vm_compute; reflexivity|left; reflexivity|].
  split; [exact H1|exact H2].
Defined.

(** After [init_db], the handle is still the one [get_db] returns. *)
Lemma init_db_keeps_connection_witness :
  get_db env_ok (snd (init_db env_ok world0))
  = (Ok (PyConn 1), snd (init_db env_ok world0)).
Proof.
  destruct (init_db_keeps_connection env_ok world0 world1 (PyConn 1))
    as (_ & _ & H & _); [vm_compute; reflexivity|].
  exact H.
Defined.

(** The bundled schema, which is its own encoding. *)
Lemma init_db_executes_encoded_text_witness :
  ∃ o, calls (snd (init_db env_ok world0))
       = calls world1 ++ [EvOpenResource "schema.sql" (Ok (str_encode schema_sql));
                          EvExecuteScript 1 schema_sql o;
                          EvCloseResource "schema.sql"]
     ∧ fst (init_db env_ok world0)
       = match o with None => Ok tt | Some ex => Raise ex end.
Proof.
  apply (init_db_executes_encoded_text env_ok world0 world1 1 schema_sql).
  - vm_compute. reflexivity.
  - apply forallb_scalar. vm_compute. reflexivity.
  - vm_compute. reflexivity.
Defined.


(** The command in a configured application with an obliging outside. *)
Lemma run_cli_init_db_succeeds_witness :
  ∃ w', run_cli (init_app env_ok new_app) "init-db" world0 = Some (0, w')
      ∧ g w' = ∅.
Proof.
  eexists. split.
  - apply (run_cli_init_db_succeeds env_ok world0 "instance/flaskr.sqlite"
             schema_sql schema_sql).
    + repeat split; reflexivity.
    + reflexivity.
    + vm_compute. reflexivity.
  - reflexivity.
Defined.

(** Acquire, release, initialise the schema, acquire: the handle returned
    last is the second connection, open and configured. *)
Lemma acquired_handle_is_open_and_configured_witness :
  ∃ r, PyConn 2 = PyConn r
     ∧ heap (snd (get_db env_ok
                    (run_ops env_ok [Acquire; Release None; InitSchema]
                       (push_context world0)))) !! r
       = Some (mkConnection "instance/flaskr.sqlite" PARSE_DECLTYPES Row false).
Proof.
  destruct (acquired_handle_is_open_and_configured env_ok world0
              (snd (get_db env_ok
                      (run_ops env_ok [Acquire; Release None; InitSchema]
                         (push_context world0))))
              "instance/flaskr.sqlite" [Acquire; Release None; InitSchema] (PyConn 2))
    as (r & H1 & H2 & _); [reflexivity|vm_compute; reflexivity|].
  exists r. split; [exact H1|exact H2].
Defined.

(** Two acquires around a release open the configured storage twice. *)
Lemma every_connect_uses_configured_path_witness :
  ∃ t, calls (run_ops env_ok [Acquire; Release None; Acquire] world0)
       = calls world0 ++ t
     ∧ Forall (configured_connect "instance/flaskr.sqlite") t.
Proof.
  apply (every_connect_uses_configured_path env_ok world0 "instance/flaskr.sqlite").
  reflexivity.
Defined.

(** Three calls while the storage directory does not exist. *)
Lemma failing_driver_is_asked_every_time_witness :
  fst (acquire_n env_no_directory 3 world0)
  = [Raise OperationalError; Raise OperationalError; Raise OperationalError].
Proof.
  rewrite (failing_driver_is_asked_every_time env_no_directory world0
             "instance/flaskr.sqlite" OperationalError 3); reflexivity.
Defined.
